(** * MiamiParkingTicketApi: a shallow embedding of [main.py]

    The development follows the source file top to bottom: the Python
    primitives the code relies on (strings, insertion-ordered dicts), the
    parsed-page tree of the HTML library, the transport session, and then
    every function of [main.py] that takes part in the search pipeline.
    What the program prints on the console is left out, and so are the
    home route and the command line.  The properties of the specification
    are stated and settled at the end, followed by further properties of
    the code. *)

From Stdlib Require Import String Ascii List Bool Arith ZArith Lia.
From Stdlib Require Import Permutation Sorted DecimalString.
Import ListNotations.
Open Scope string_scope.
Open Scope list_scope.

(** ** Python strings

    A [str] is modelled as a Rocq [string]; the case and whitespace
    operations are the ASCII restrictions of the Python ones (a character
    outside ASCII is left as it is).  The model therefore speaks of ASCII
    text: Python also strips the Unicode spaces (U+0085, U+00A0 and the
    like) and changes the case of letters outside ASCII, which no page or
    tag considered here contains. *)
Module Py.

(** [c.isspace()] on the ASCII range: TAB, LF, VT, FF, CR, the four
    separators 0x1c-0x1f and the space. *)
Definition isspace (c : ascii) : bool :=
  let n := nat_of_ascii c in
  (((9 <=? n) && (n <=? 13)) || ((28 <=? n) && (n <=? 32)))%nat.

Fixpoint lstrip (s : string) : string :=
  match s with
  | EmptyString => EmptyString
  | String c s' => if isspace c then lstrip s' else s
  end.

Fixpoint rstrip (s : string) : string :=
  match s with
  | EmptyString => EmptyString
  | String c s' =>
      match rstrip s' with
      | EmptyString => if isspace c then EmptyString else String c EmptyString
      | r => String c r
      end
  end.

(** [s.strip()] *)
Definition strip (s : string) : string := lstrip (rstrip s).

Definition lower_char (c : ascii) : ascii :=
  let n := nat_of_ascii c in
  if ((65 <=? n) && (n <=? 90))%nat then ascii_of_nat (n + 32) else c.

Definition upper_char (c : ascii) : ascii :=
  let n := nat_of_ascii c in
  if ((97 <=? n) && (n <=? 122))%nat then ascii_of_nat (n - 32) else c.

Fixpoint map_chars (f : ascii -> ascii) (s : string) : string :=
  match s with
  | EmptyString => EmptyString
  | String c s' => String (f c) (map_chars f s')
  end.

(** [s.lower()] and [s.upper()] *)
Definition lower (s : string) : string := map_chars lower_char s.
Definition upper (s : string) : string := map_chars upper_char s.

(** [s.replace(old, new)] for a one-character [old]. *)
Fixpoint replace (old : ascii) (new : string) (s : string) : string :=
  match s with
  | EmptyString => EmptyString
  | String c s' =>
      if Ascii.eqb c old then new ++ replace old new s'
      else String c (replace old new s')
  end.

(** [s.startswith(p)] *)
Definition startswith (p s : string) : bool := String.prefix p s.

(** [s[n:]] *)
Fixpoint drop (n : nat) (s : string) : string :=
  match n, s with
  | O, _ => s
  | S _, EmptyString => EmptyString
  | S n', String _ s' => drop n' s'
  end.

(** [p in s] *)
Fixpoint contains (p s : string) : bool :=
  String.prefix p s ||
  match s with
  | EmptyString => false
  | String _ s' => contains p s'
  end.

(** [s.split(sep)] for a one-character [sep]: never the empty list. *)
Fixpoint split (sep : ascii) (s : string) : list string :=
  match s with
  | EmptyString => [EmptyString]
  | String c s' =>
      if Ascii.eqb c sep then EmptyString :: split sep s'
      else match split sep s' with
           | [] => [String c EmptyString]
           | p :: ps => String c p :: ps
           end
  end.

(** [a <= b] on strings: lexicographic on character codes. *)
Fixpoint str_leb (a b : string) : bool :=
  match a, b with
  | EmptyString, _ => true
  | String _ _, EmptyString => false
  | String x a', String y b' =>
      let nx := nat_of_ascii x in
      let ny := nat_of_ascii y in
      if (nx <? ny)%nat then true
      else if (nx =? ny)%nat then str_leb a' b'
      else false
  end.

(** [str(n)] for an integer. *)
Definition str_of_Z (z : Z) : string := NilZero.string_of_int (Z.to_int z).

(** *** Dicts

    A Python [dict] keeps its keys in insertion order and assigning to a
    key that is present replaces the value where it stands. *)
Section Dict.
Context {V : Type}.

Definition dict := list (string * V).

(** [d.get(k)] *)
Fixpoint get (k : string) (d : dict) : option V :=
  match d with
  | [] => None
  | (k', v) :: d' => if String.eqb k k' then Some v else get k d'
  end.

(** [k in d] *)
Definition mem (k : string) (d : dict) : bool :=
  match get k d with Some _ => true | None => false end.

(** [d[k] = v] *)
Fixpoint set (k : string) (v : V) (d : dict) : dict :=
  match d with
  | [] => [(k, v)]
  | (k', v') :: d' =>
      if String.eqb k k' then (k', v) :: d' else (k', v') :: set k v d'
  end.

(** [d.update(other)] *)
Definition update (d other : dict) : dict :=
  fold_left (fun acc kv => set (fst kv) (snd kv) acc) other d.

Definition keys (d : dict) : list string := map fst d.
End Dict.
Arguments dict : clear implicits.

End Py.

(** ** Parsed pages

    The HTML library is a capability of the program: a page is the node tree
    the parser hands back.  Tag and attribute names are as the parser stores
    them (lower case); the [class] attribute holds its tokens joined by single
    spaces.  Only text and element nodes are modelled: a [Text] node is a
    string that [get_text] yields, so comments and the contents of
    [script], [style] and [template] elements, which [get_text] leaves out,
    have no [Text] node in the tree. *)
Module Soup.

#[local] Set Warnings "-register-all".
Inductive Node : Type :=
| Text (s : string)
| Elem (tag : string) (attrs : list (string * string)) (kids : list Node).

Definition tag_of (n : Node) : option string :=
  match n with Text _ => None | Elem t _ _ => Some t end.

Definition attrs_of (n : Node) : list (string * string) :=
  match n with Text _ => [] | Elem _ a _ => a end.

(** [el.get(name)] *)
Definition attr (name : string) (n : Node) : option string :=
  Py.get name (attrs_of n).

(** [el.has_attr(name)] *)
Definition has_attr (name : string) (n : Node) : bool :=
  Py.mem name (attrs_of n).

(** [el.get(name, default)] *)
Definition attr_or (name default : string) (n : Node) : string :=
  match attr name n with Some v => v | None => default end.

(** [el.descendants]: every node below [n], in document order. *)
Fixpoint descendants (n : Node) : list Node :=
  match n with
  | Text _ => []
  | Elem _ _ kids => flat_map (fun k => k :: descendants k) kids
  end.

Definition is_tag (name : string) (n : Node) : bool :=
  match n with Text _ => false | Elem t _ _ => String.eqb t name end.

Definition is_tag_in (names : list string) (n : Node) : bool :=
  existsb (fun name => is_tag name n) names.

Definition attr_is (name value : string) (n : Node) : bool :=
  match attr name n with Some v => String.eqb v value | None => false end.

(** [el.find_all(name)] *)
Definition find_all (name : string) (n : Node) : list Node :=
  filter (is_tag name) (descendants n).

(** [el.find_all([name1, name2, ...])] *)
Definition find_all_in (names : list string) (n : Node) : list Node :=
  filter (is_tag_in names) (descendants n).

(** [el.find(name)]: the first match of [find_all]. *)
Definition find (name : string) (n : Node) : option Node :=
  hd_error (find_all name n).

(** [el.find(name, id=i)] *)
Definition find_by_id (name i : string) (n : Node) : option Node :=
  hd_error (filter (attr_is "id" i) (find_all name n)).

(** [el.find(name, a=True)]: the first [name] element carrying attribute [a]. *)
Definition find_with_attr (name a : string) (n : Node) : option Node :=
  hd_error (filter (has_attr a) (find_all name n)).

(** [el.find_all(name, class_=c)] for a [c] of several tokens: the elements
    whose class attribute is exactly [c]. *)
Definition find_all_class (name c : string) (n : Node) : list Node :=
  filter (attr_is "class" c) (find_all name n).

(** [soup.select(name + "[" + a + "]")] *)
Definition select_with_attr (name a : string) (n : Node) : list Node :=
  filter (has_attr a) (find_all name n).

Definition is_elem (n : Node) : bool :=
  match n with Text _ => false | Elem _ _ _ => true end.

(** [soup.select_one("#" + i)] *)
Definition select_one_id (i : string) (n : Node) : option Node :=
  hd_error (filter (attr_is "id" i) (filter is_elem (descendants n))).

(** The text nodes at or below [n], in document order. *)
Definition strings (n : Node) : list string :=
  match n with
  | Text s => [s]
  | Elem _ _ _ =>
      flat_map (fun k => match k with Text s => [s] | Elem _ _ _ => [] end)
               (descendants n)
  end.

(** [el.get_text()] *)
Definition get_text (n : Node) : string :=
  String.concat "" (strings n).

(** [el.get_text(strip=True)]: every string stripped, the empty ones left
    out, the rest joined without a separator. *)
Definition get_text_strip (n : Node) : string :=
  String.concat ""
    (filter (fun s => negb (String.eqb s "")) (map Py.strip (strings n))).

End Soup.

(** ** The transport session

    The HTTP library is the second capability.  What the outside world
    answers is a parameter of the model: [net n rq] is the outcome of the
    request [rq] when it is the [n]-th request the process sends.  Every
    request sent and every pause taken is recorded, in order, in the
    [World]. *)
Module Http.

(** The exception classes the code tells apart.  [Timeout],
    [ConnectionError] and [HTTPError] are all subclasses of the library's
    [RequestException]; [OtherRequestException] stands for its remaining
    subclasses and [OtherException] for any [Exception] outside that
    hierarchy. *)
Inductive ExnClass : Type :=
| Timeout
| ConnectionError
| HTTPError
| OtherRequestException
| OtherException.

(** An exception value; [str(e)] is [exn_msg e]. *)
Record Exn : Type := mkExn { exn_class : ExnClass; exn_msg : string }.

(** [isinstance(e, requests.exceptions.Timeout)] *)
Definition is_Timeout (e : Exn) : bool :=
  match exn_class e with Timeout => true | _ => false end.

(** [isinstance(e, requests.exceptions.RequestException)] *)
Definition is_RequestException (e : Exn) : bool :=
  match exn_class e with OtherException => false | _ => true end.

Inductive Method : Type := GET | POST.

(** A request to [BASE_URL]; [req_data] is the form payload of a POST. *)
Record Request : Type :=
  mkRequest { req_method : Method; req_data : Py.dict string }.

(** A received response: status line and the body, already parsed. *)
Record Response : Type :=
  mkResponse { status_code : Z; reason : string; body : Soup.Node }.

Inductive Outcome : Type :=
| Responds (r : Response)
| Raises (e : Exn).

Definition Net : Type := nat -> Request -> Outcome.

(** [Slept ms]: a [time.sleep] of [ms] milliseconds. *)
Inductive Event : Type :=
| Sent (rq : Request)
| Slept (ms : Z).

Definition World : Type := list Event.

Definition is_Sent (ev : Event) : bool :=
  match ev with Sent _ => true | Slept _ => false end.

(** How many requests have been sent so far. *)
Definition sent (w : World) : nat := length (filter is_Sent w).

Definition pauses (w : World) : list Z :=
  flat_map (fun ev => match ev with Sent _ => [] | Slept ms => [ms] end) w.

(** A call either returns or raises. *)
Inductive Result (A : Type) : Type :=
| Ok (a : A)
| Raise (e : Exn).
Arguments Ok {A} a.
Arguments Raise {A} e.

(** Computations over the world. *)
Definition M (A : Type) : Type := World -> Result A * World.

Definition ret {A} (a : A) : M A := fun w => (Ok a, w).

Definition raise {A} (e : Exn) : M A := fun w => (Raise e, w).

Definition bind {A B} (m : M A) (k : A -> M B) : M B :=
  fun w =>
    match m w with
    | (Ok a, w') => k a w'
    | (Raise e, w') => (Raise e, w')
    end.

(** [try: m except Exception as e: h e] *)
Definition try_except {A} (m : M A) (h : Exn -> M A) : M A :=
  fun w =>
    match m w with
    | (Ok a, w') => (Ok a, w')
    | (Raise e, w') => h e w'
    end.

(** [session.get(BASE_URL, timeout=30)] and
    [session.post(BASE_URL, data=data, timeout=30)] *)
Definition send (net : Net) (rq : Request) : M Response :=
  fun w =>
    match net (sent w) rq with
    | Responds r => (Ok r, w ++ [Sent rq])
    | Raises e => (Raise e, w ++ [Sent rq])
    end.

Definition session_get (net : Net) : M Response :=
  send net (mkRequest GET []).

Definition session_post (net : Net) (data : Py.dict string) : M Response :=
  send net (mkRequest POST data).

Definition BASE_URL : string :=
  "https://www2.miamidadeclerk.gov/payparking/parkingSearch.aspx".

(** [r.raise_for_status()]: an [HTTPError] for a 4xx or 5xx status. *)
Definition raise_for_status (r : Response) : M unit :=
  if ((400 <=? status_code r) && (status_code r <? 500))%Z then
    raise (mkExn HTTPError
             (Py.str_of_Z (status_code r) ++ " Client Error: " ++ reason r
                ++ " for url: " ++ BASE_URL))
  else if ((500 <=? status_code r) && (status_code r <? 600))%Z then
    raise (mkExn HTTPError
             (Py.str_of_Z (status_code r) ++ " Server Error: " ++ reason r
                ++ " for url: " ++ BASE_URL))
  else ret tt.

(** [time.sleep(ms / 1000)] *)
Definition sleep (ms : Z) : M unit := fun w => (Ok tt, w ++ [Slept ms]).

End Http.

Import Http.

Notation "x <- m ;; k" := (Http.bind m (fun x => k))
  (at level 61, m at next level, right associativity).
Notation "m ;;; k" := (Http.bind m (fun _ => k))
  (at level 61, right associativity).

(** ** Utilities *)

(** One step of the first loop of [collect_form_fields]. *)
Definition collect_input (data : Py.dict string) (inp : Soup.Node)
  : Py.dict string :=
  match Soup.attr "name" inp with
  | None => data
  | Some name =>
      let t := Py.lower (Soup.attr_or "type" "" inp) in
      if String.eqb t "checkbox" || String.eqb t "radio" then
        if Soup.has_attr "checked" inp
        then Py.set name (Soup.attr_or "value" "on" inp) data
        else data
      else Py.set name (Soup.attr_or "value" "" inp) data
  end.

(** One step of its second loop: the selected option, else the first one. *)
Definition collect_select (data : Py.dict string) (sel : Soup.Node)
  : Py.dict string :=
  match Soup.attr "name" sel with
  | None => data
  | Some name =>
      let opt :=
        match Soup.find_with_attr "option" "selected" sel with
        | Some o => Some o
        | None => Soup.find "option" sel
        end in
      match opt with
      | Some o =>
          Py.set name (Soup.attr_or "value" (Soup.get_text_strip o) o) data
      | None => data
      end
  end.

(** One step of its third loop. *)
Definition collect_textarea (data : Py.dict string) (ta : Soup.Node)
  : Py.dict string :=
  match Soup.attr "name" ta with
  | None => data
  | Some name => Py.set name (Soup.get_text ta) data
  end.

(** [collect_form_fields(soup)] *)
Definition collect_form_fields (soup : Soup.Node) : Py.dict string :=
  let data := [] in
  let data :=
    fold_left collect_input (Soup.select_with_attr "input" "name" soup) data in
  let data :=
    fold_left collect_select (Soup.select_with_attr "select" "name" soup) data in
  fold_left collect_textarea (Soup.select_with_attr "textarea" "name" soup) data.

(** The inner [val(i)] of [extract_hidden_fields]. *)
Definition val (soup : Soup.Node) (i : string) : string :=
  match Soup.find_by_id "input" i soup with
  | Some el => if Soup.has_attr "value" el then Soup.attr_or "value" "" el else ""
  | None => ""
  end.

(** [extract_hidden_fields(soup)] *)
Definition extract_hidden_fields (soup : Soup.Node) : Py.dict string :=
  [ ("__VIEWSTATE", val soup "__VIEWSTATE");
    ("__EVENTVALIDATION", val soup "__EVENTVALIDATION");
    ("__VIEWSTATEGENERATOR", val soup "__VIEWSTATEGENERATOR") ].

(** The body of the [try] of [postback] for one attempt. *)
Definition postback_attempt (net : Net) (soup : Soup.Node)
    (event_target event_argument : string) (attempt : nat) : M Soup.Node :=
  let data := collect_form_fields soup in
  let data := Py.update data (extract_hidden_fields soup) in
  let data := Py.set "__EVENTTARGET" event_target data in
  let data := Py.set "__EVENTARGUMENT" event_argument data in
  (if (0 <? attempt)%nat then sleep 500 else ret tt) ;;;
  r <- session_post net data ;;
  raise_for_status r ;;;
  ret (body r).

(** The [for attempt in range(max_retries)] loop of [postback]: [todo]
    attempts are left and [attempt] is the current index.  Both [except]
    clauses re-raise on the last attempt and fall through to the next
    iteration otherwise; an exception neither clause matches leaves the
    function at once. *)
Fixpoint postback_loop (net : Net) (soup : Soup.Node)
    (event_target event_argument : string) (max_retries : Z)
    (todo attempt : nat) : M Soup.Node :=
  match todo with
  | O =>
      raise (mkExn OtherException
               ("Failed after " ++ Py.str_of_Z max_retries ++ " attempts"))
  | S todo' =>
      try_except
        (postback_attempt net soup event_target event_argument attempt)
        (fun e =>
           if is_Timeout e then
             if (Z.of_nat attempt =? max_retries - 1)%Z then raise e
             else postback_loop net soup event_target event_argument
                    max_retries todo' (S attempt)
           else if is_RequestException e then
             if (Z.of_nat attempt =? max_retries - 1)%Z then raise e
             else postback_loop net soup event_target event_argument
                    max_retries todo' (S attempt)
           else raise e)
  end.

(** [postback(session, soup, event_target, event_argument, max_retries)];
    the parsed page stands for both components of the returned pair. *)
Definition postback (net : Net) (soup : Soup.Node)
    (event_target event_argument : string) (max_retries : Z) : M Soup.Node :=
  postback_loop net soup event_target event_argument max_retries
    (Z.to_nat max_retries) 0.

(** ** Parsing helpers *)

Definition needed : list string :=
  ["citation"; "date issued"; "status"; "amount due"].

(** [headers] of [find_results_table]. *)
Definition table_headers (table : Soup.Node) : list string :=
  map (fun th => Py.lower (Soup.get_text_strip th)) (Soup.find_all "th" table).

(** [needed.issubset(set(headers))] *)
Definition issubset (small big : list string) : bool :=
  forallb (fun x => existsb (String.eqb x) big) small.

(** The [for table in ...] loop of [find_results_table]. *)
Fixpoint find_results_table_loop (tables : list Soup.Node)
  : option Soup.Node :=
  match tables with
  | [] => None
  | table :: rest =>
      let headers := table_headers table in
      match headers with
      | [] => find_results_table_loop rest
      | _ :: _ =>
          if issubset needed headers then Some table
          else find_results_table_loop rest
      end
  end.

(** [find_results_table(soup)] *)
Definition find_results_table (soup : Soup.Node) : option Soup.Node :=
  find_results_table_loop (Soup.find_all "table" soup).

(** A row of the results table: the dict with the keys ["Citation"],
    ["Date Issued"], ["Status"], ["Amount Due"] and ["_expand_target"]. *)
Record SummaryRow : Type := mkRow {
  Citation : string;
  Date_Issued : string;
  Status : string;
  Amount_Due : string;
  _expand_target : option string
}.

(** [{h.lower(): i for i, h in enumerate(header_cells)}], from index [i]. *)
Fixpoint header_map (i : nat) (header_cells : list string)
    (hmap : Py.dict nat) : Py.dict nat :=
  match header_cells with
  | [] => hmap
  | h :: rest => header_map (S i) rest (Py.set (Py.lower h) i hmap)
  end.

(** [hmap.get(name, default)] *)
Definition hmap_get (hmap : Py.dict nat) (name : string) (default : nat)
  : nat :=
  match Py.get name hmap with Some i => i | None => default end.

(** The expand link of the first column. *)
Definition expand_target_of (cell : Soup.Node) : option string :=
  match Soup.find_with_attr "a" "href" cell with
  | Some expand_a =>
      let href := Soup.attr_or "href" "" expand_a in
      if Py.contains "__doPostBack" href then
        match Py.split "'" href with
        | _ :: p1 :: _ => Some p1
        | _ => None
        end
      else None
  | None => None
  end.

(** The body of the [for tr in trs[1:]] loop of [parse_main_rows]: the row
    to append, or nothing when the loop continues. *)
Definition parse_main_row (idx_plus idx_cit idx_date idx_status idx_amount : nat)
    (tr : Soup.Node) : option SummaryRow :=
  let tds := Soup.find_all "td" tr in
  let cell i := nth i tds (Soup.Text "") in
  if (length tds <?
      Nat.max idx_amount (Nat.max idx_status (Nat.max idx_date
        (Nat.max idx_cit idx_plus))) + 1)%nat
  then None
  else
    let expand_target := expand_target_of (cell idx_plus) in
    let citation_text := Soup.get_text_strip (cell idx_cit) in
    if String.eqb citation_text "" then None
    else Some {| Citation := citation_text;
                 Date_Issued := Soup.get_text_strip (cell idx_date);
                 Status := Soup.get_text_strip (cell idx_status);
                 Amount_Due := Soup.get_text_strip (cell idx_amount);
                 _expand_target := expand_target |}.

Definition option_to_list {A} (o : option A) : list A :=
  match o with Some a => [a] | None => [] end.

(** [parse_main_rows(results_table)] *)
Definition parse_main_rows (results_table : Soup.Node) : list SummaryRow :=
  let trs := Soup.find_all "tr" results_table in
  match trs with
  | [] | [_] => []
  | tr0 :: data_trs =>
      let header_cells := map Soup.get_text_strip (Soup.find_all "th" tr0) in
      let hmap := header_map 0 header_cells [] in
      let idx_plus := hmap_get hmap "more info" 0 in
      let idx_cit := hmap_get hmap "citation" 1 in
      let idx_date := hmap_get hmap "date issued" 2 in
      let idx_status := hmap_get hmap "status" 3 in
      let idx_amount := hmap_get hmap "amount due" 4 in
      flat_map
        (fun tr => option_to_list
           (parse_main_row idx_plus idx_cit idx_date idx_status idx_amount tr))
        data_trs
  end.

Definition id_mappings : list (string * string) :=
  [ ("lb_Citation", "citation_number");
    ("lb_Tag", "tag_number");
    ("lb_State", "state");
    ("lb_IssueDateTime", "issue_date_time");
    ("lb_amountdue", "amount_due_now");
    ("lb_duedate", "due_date");
    ("lb_amountdueafter", "amount_due_after_due_date");
    ("lb_Status", "status");
    ("lb_Violation", "violation_type");
    ("lb_location", "location");
    ("lb_municipality", "municipality");
    ("lb_carmake", "vehicle_make");
    ("lb_carstyle", "vehicle_style");
    ("lb_color", "vehicle_color") ].

(** The body of the loop over [id_mappings]. *)
Definition parse_known (soup : Soup.Node) (details : Py.dict string)
    (m : string * string) : Py.dict string :=
  let '(element_id, field_name) := m in
  match Soup.find_by_id "span" element_id soup with
  | Some element => Py.set field_name (Soup.get_text_strip element) details
  | None => details
  end.

(** [key.lower().replace(' ', '_').replace('/', '_').replace('&', 'and')] *)
Definition clean_key (key : string) : string :=
  Py.replace "&" "and" (Py.replace "/" "_" (Py.replace " " "_" (Py.lower key))).

(** The body of the loop over the rows of a fallback table. *)
Definition parse_fallback_row (details : Py.dict string) (row : Soup.Node)
  : Py.dict string :=
  match Soup.find_all_in ["td"; "th"] row with
  | c0 :: c1 :: _ =>
      let key := Soup.get_text_strip c0 in
      let value := Soup.get_text_strip c1 in
      if negb (String.eqb key "") && negb (String.eqb value "")
      then Py.set ("table_" ++ clean_key key) value details
      else details
  | _ => details
  end.

Definition parse_fallback_table (details : Py.dict string) (table : Soup.Node)
  : Py.dict string :=
  fold_left parse_fallback_row (Soup.find_all "tr" table) details.

(** [parse_citation_details(soup, citation_number)] *)
Definition parse_citation_details (soup : Soup.Node) (citation_number : string)
  : Py.dict string :=
  let details := [] in
  let details := fold_left (parse_known soup) id_mappings details in
  let tables := Soup.find_all_class "table" "table table-bordered mb-0" soup in
  fold_left parse_fallback_table tables details.

(** ** Optimized main flow *)

Definition txtcitn : string := "ctl00$ContentPlaceHolder1$txtcitn".
Definition txtTag : string := "ctl00$ContentPlaceHolder1$txtTag".
Definition hfTab : string := "ctl00$ContentPlaceHolder1$hfTab".
Definition DropDownState : string := "ctl00$ContentPlaceHolder1$DropDownState".
Definition btnSubmit_CitSearch : string :=
  "ctl00$ContentPlaceHolder1$btnSubmit_CitSearch".
Definition btnSubmit_TagSearch : string :=
  "ctl00$ContentPlaceHolder1$btnSubmit_TagSearch".

(** [if key in data: data[key] = value] *)
Definition set_if_present (key value : string) (data : Py.dict string)
  : Py.dict string :=
  if Py.mem key data then Py.set key value data else data.

(** The truth value of [base_form_data]: neither [None] nor empty. *)
Definition nonempty_form (base_form_data : option (Py.dict string))
  : option (Py.dict string) :=
  match base_form_data with
  | Some (kv :: d) => Some (kv :: d)
  | _ => None
  end.

(** [fetch_citation_details_optimized(session, citation_number,
    base_form_data)].  The function edits [base_form_data.copy()]: the dict
    the workers share is left as it is, which the functional [Py.set]
    renders. *)
Definition fetch_citation_details_optimized (net : Net)
    (citation_number : string) (base_form_data : option (Py.dict string))
  : M (Py.dict string) :=
  data <-
    match nonempty_form base_form_data with
    | Some base =>
        let data := base in
        let data := Py.set "__EVENTTARGET" btnSubmit_CitSearch data in
        let data := Py.set "__EVENTARGUMENT" "" data in
        let data := Py.set txtcitn citation_number data in
        let data := Py.set txtTag "" data in
        let data := set_if_present hfTab "citation" data in
        let data := set_if_present DropDownState "FL" data in
        ret data
    | None =>
        r <- session_get net ;;
        raise_for_status r ;;;
        let soup := body r in
        let data := collect_form_fields soup in
        let data := Py.update data (extract_hidden_fields soup) in
        let data := Py.set "__EVENTTARGET" btnSubmit_CitSearch data in
        let data := Py.set "__EVENTARGUMENT" "" data in
        let data := Py.set txtcitn citation_number data in
        let data := set_if_present hfTab "citation" data in
        let data := set_if_present txtTag "" data in
        let data := set_if_present DropDownState "FL" data in
        ret data
    end ;;
  r2 <- session_post net data ;;
  raise_for_status r2 ;;;
  let soup := body r2 in
  ret (parse_citation_details soup citation_number).

(** A value of a citation record: a string or a boolean. *)
Inductive Value : Type :=
| VStr (s : string)
| VBool (b : bool).

Definition CitationInfo : Type := Py.dict Value.

(** The loop building [cleaned_details]. *)
Definition clean_detail (cleaned_details : Py.dict string)
    (kv : string * string) : Py.dict string :=
  let '(key, value) := kv in
  if Py.startswith "table_" key
  then Py.set (Py.drop 6 key) value cleaned_details
  else Py.set key value cleaned_details.

Definition as_values (d : Py.dict string) : CitationInfo :=
  map (fun kv => (fst kv, VStr (snd kv))) d.

(** The arguments of a worker; the session is the network. *)
Record WorkerArgs : Type := mkArgs {
  arg_citation_number : string;
  arg_base_form_data : option (Py.dict string);
  arg_row : SummaryRow
}.

(** [fetch_citation_details_worker(args)] *)
Definition fetch_citation_details_worker (net : Net) (args : WorkerArgs)
  : M CitationInfo :=
  let citation_number := arg_citation_number args in
  let base_form_data := arg_base_form_data args in
  let row := arg_row args in
  let citation := Citation row in
  let date_issued := Date_Issued row in
  let status := Status row in
  let amount_due := Amount_Due row in
  try_except
    (details <-
       fetch_citation_details_optimized net citation_number base_form_data ;;
     let citation_info : CitationInfo :=
       [ ("Citation", VStr citation);
         ("Date Issued", VStr date_issued);
         ("Status", VStr status);
         ("Amount Due", VStr amount_due) ] in
     let citation_info :=
       if String.eqb status "OPEN" then
         Py.set "payment_required" (VStr amount_due)
           (Py.set "needs_payment" (VBool true) citation_info)
       else
         Py.set "payment_required" (VStr "$0.00")
           (Py.set "needs_payment" (VBool false) citation_info) in
     let citation_info :=
       match details with
       | [] => citation_info
       | _ :: _ =>
           let cleaned_details := fold_left clean_detail details [] in
           let citation_info :=
             Py.update citation_info (as_values cleaned_details) in
           if negb (Py.mem "due_date" citation_info) then
             Py.set "due_date_estimated" (VBool false)
               (Py.set "due_date" (VStr "Not available") citation_info)
           else citation_info
       end in
     ret citation_info)
    (fun e =>
       ret [ ("Citation", VStr citation);
             ("Date Issued", VStr date_issued);
             ("Status", VStr status);
             ("Amount Due", VStr amount_due);
             ("needs_payment", VBool (String.eqb status "OPEN"));
             ("payment_required",
               VStr (if String.eqb status "OPEN" then amount_due else "$0.00"));
             ("due_date", VStr "Not available");
             ("due_date_estimated", VBool false);
             ("error", VStr (exn_msg e)) ]).

(** The ["summary"] of a search result; [total_due = None] is [null]. *)
Record Summary : Type := mkSummary {
  total_citations : nat;
  total_paid : nat;
  total_open : nat;
  total_due : option string
}.

(** The dict [fetch_all_citations] returns; [message = None] when the key
    is absent. *)
Record SearchResult : Type := mkResult {
  tag_number : string;
  summary : Summary;
  paid_citations : list CitationInfo;
  open_citations : list CitationInfo;
  message : option string
}.

(** The order in which a pool of threads gets to act is not fixed by the
    program.  A schedule is a list of choices: each one picks, modulo the
    number of candidates left, who goes next; when the choices run out the
    rest go in the order they were submitted. *)
Fixpoint pick {A} (sched : list nat) (xs : list A) : list A :=
  match xs with
  | [] => []
  | x :: _ =>
      match sched with
      | [] => xs
      | k :: sched' =>
          let i := k mod length xs in
          nth i xs x :: pick sched' (firstn i xs ++ skipn (S i) xs)
      end
  end.

(** A finished future: the citation number it was filed under and what
    [future.result()] gives. *)
Definition Future : Type := (string * Result CitationInfo)%type.

(** The tasks of the executor, each run to its end in the given order. *)
Fixpoint run_tasks (net : Net) (tasks : list WorkerArgs) (w : World)
  : list Future * World :=
  match tasks with
  | [] => ([], w)
  | args :: rest =>
      let '(res, w1) := fetch_citation_details_worker net args w in
      let '(futs, w2) := run_tasks net rest w1 in
      ((arg_citation_number args, res) :: futs, w2)
  end.

(** The body of the [for future in as_completed(...)] loop. *)
Definition collect_future (citations : list CitationInfo) (fut : Future)
  : list CitationInfo :=
  let citation_number := fst fut in
  match snd fut with
  | Ok citation_info => citations ++ [citation_info]
  | Raise e =>
      citations ++
        [[ ("Citation", VStr citation_number);
           ("Date Issued", VStr "Unknown");
           ("Status", VStr "Unknown");
           ("Amount Due", VStr "Unknown");
           ("needs_payment", VBool false);
           ("payment_required", VStr "$0.00");
           ("error", VStr (exn_msg e)) ]]
  end.

(** [x.get("Citation", "")]; every record the pipeline builds holds a
    string there. *)
Definition citation_key (x : CitationInfo) : string :=
  match Py.get "Citation" x with
  | Some (VStr s) => s
  | Some (VBool _) => ""
  | None => ""
  end.

(** [citations.sort(key=...)]: the stable sort by key. *)
Fixpoint insert_by_key (x : CitationInfo) (l : list CitationInfo)
  : list CitationInfo :=
  match l with
  | [] => [x]
  | y :: l' =>
      if Py.str_leb (citation_key x) (citation_key y) then x :: y :: l'
      else y :: insert_by_key x l'
  end.

Fixpoint sort_by_key (l : list CitationInfo) : list CitationInfo :=
  match l with
  | [] => []
  | x :: l' => insert_by_key x (sort_by_key l')
  end.

(** The truth value of [citation.get("needs_payment", False)]. *)
Definition needs_payment (citation : CitationInfo) : bool :=
  match Py.get "needs_payment" citation with
  | Some (VBool b) => b
  | Some (VStr s) => negb (String.eqb s "")
  | None => false
  end.

(** Steps 1 to 3 of [fetch_all_citations]: the results page and the form
    data that was posted to get it. *)
Definition search (net : Net) (tag_number : string)
  : M (Soup.Node * Py.dict string) :=
  r <- session_get net ;;
  raise_for_status r ;;;
  let soup := body r in
  let data := collect_form_fields soup in
  let data := Py.update data (extract_hidden_fields soup) in
  let data := Py.set "__EVENTTARGET" btnSubmit_TagSearch data in
  let data := Py.set "__EVENTARGUMENT" "" data in
  let data := Py.set txtTag (Py.upper (Py.strip tag_number)) data in
  let data :=
    match Py.get DropDownState data with
    | Some "" => Py.set DropDownState "FL" data
    | _ => data
    end in
  let data := set_if_present hfTab "tagplate" data in
  let data := set_if_present txtcitn "" data in
  r2 <- session_post net data ;;
  raise_for_status r2 ;;;
  ret (body r2, data).

(** The executor block of step 5: the workers run in the order [sched_run]
    picks and their futures complete in the order [sched_done] picks. *)
Definition dispatch (net : Net) (sched_run sched_done : list nat)
    (data : Py.dict string) (rows : list SummaryRow) (w : World)
  : list CitationInfo * World :=
  let worker_args :=
    map (fun row => mkArgs (Citation row) (Some data) row) rows in
  let '(futures, w') := run_tasks net (pick sched_run worker_args) w in
  (fold_left collect_future (pick sched_done futures) [], w').

(** The end of [fetch_all_citations]: sort, partition, count. *)
Definition merge (tag_number : string) (total_due : option string)
    (citations : list CitationInfo) : SearchResult :=
  let citations := sort_by_key citations in
  let paid_citations := filter (fun c => negb (needs_payment c)) citations in
  let open_citations := filter needs_payment citations in
  let total_open := length open_citations in
  let total_paid := length paid_citations in
  {| tag_number := Py.upper (Py.strip tag_number);
     summary := {| total_citations := length citations;
                   total_paid := total_paid;
                   total_open := total_open;
                   total_due := total_due |};
     paid_citations := paid_citations;
     open_citations := open_citations;
     message := None |}.

Definition text_of (el : option Soup.Node) : option string :=
  option_map Soup.get_text_strip el.

(** [fetch_all_citations(tag_number)]; the outer [except] re-raises what it
    catches. *)
Definition fetch_all_citations (net : Net) (sched_run sched_done : list nat)
    (tag_number : string) : M SearchResult :=
  found <- search net tag_number ;;
  let '(soup, data) := found in
  match find_results_table soup with
  | None =>
      let msg := Soup.select_one_id "lblErrorTag" soup in
      ret {| tag_number := Py.upper (Py.strip tag_number);
             summary := {| total_citations := 0;
                           total_paid := 0;
                           total_open := 0;
                           total_due := None |};
             paid_citations := [];
             open_citations := [];
             message :=
               Some (match msg with
                     | Some m => Soup.get_text_strip m
                     | None => "No results table found."
                     end) |}
  | Some table =>
      let rows := parse_main_rows table in
      let total_due_el := Soup.select_one_id "lbl_totaldue_vTag" soup in
      let total_due := text_of total_due_el in
      match rows with
      | [] =>
          ret {| tag_number := Py.upper (Py.strip tag_number);
                 summary := {| total_citations := 0;
                               total_paid := 0;
                               total_open := 0;
                               total_due := total_due |};
                 paid_citations := [];
                 open_citations := [];
                 message := None |}
      | _ :: _ =>
          fun w =>
            let '(citations, w') :=
              dispatch net sched_run sched_done data rows w in
            (Ok (merge tag_number total_due citations), w')
      end
  end.

(** ** Notions used to state the properties *)

(** [x] is the first element of [l] that satisfies [p]. *)
Definition first_such {A} (p : A -> bool) (l : list A) (x : A) : Prop :=
  exists before after,
    l = before ++ x :: after /\ p x = true /\
    Forall (fun y => p y = false) before.

(** No element of [l] satisfies [p]. *)
Definition none_such {A} (p : A -> bool) (l : list A) : Prop :=
  Forall (fun y => p y = false) l.

(** An [input] element with identifier [i]. *)
Definition input_with_id (i : string) (n : Soup.Node) : bool :=
  Soup.is_tag "input" n && Soup.attr_is "id" i n.

Definition hidden_ids : list string :=
  ["__VIEWSTATE"; "__EVENTVALIDATION"; "__VIEWSTATEGENERATOR"].

(** ** Sample pages *)

Definition th (s : string) : Soup.Node := Soup.Elem "th" [] [Soup.Text s].
Definition td (s : string) : Soup.Node := Soup.Elem "td" [] [Soup.Text s].
Definition tr (cells : list Soup.Node) : Soup.Node := Soup.Elem "tr" [] cells.
Definition document (kids : list Soup.Node) : Soup.Node :=
  Soup.Elem "[document]" [] kids.

Definition landing_page : Soup.Node :=
  document
    [Soup.Elem "form" []
       [Soup.Elem "input"
          [("type", "hidden"); ("name", "__VIEWSTATE"); ("id", "__VIEWSTATE");
           ("value", "dDwtMTA4")] [];
        Soup.Elem "input"
          [("type", "hidden"); ("name", "__EVENTVALIDATION");
           ("id", "__EVENTVALIDATION")] [];
        Soup.Elem "input" [("type", "text"); ("name", txtTag)] [];
        Soup.Elem "select" [("name", DropDownState)]
          [Soup.Elem "option" [("value", "")] [Soup.Text "--"];
           Soup.Elem "option" [("value", "GA")] [Soup.Text "Georgia"]]]].

(** The header texts of [table], lower-cased, contain every required
    column name. *)
Definition has_needed_headers (table : Soup.Node) : Prop :=
  forall name, In name needed -> In name (table_headers table).

(** What "the first matching table, or none" means for a page. *)
Definition located (soup : Soup.Node) (found : option Soup.Node) : Prop :=
  match found with
  | Some table =>
      exists before after,
        Soup.find_all "table" soup = before ++ table :: after /\
        has_needed_headers table /\
        Forall (fun t => ~ has_needed_headers t) before
  | None =>
      Forall (fun t => ~ has_needed_headers t) (Soup.find_all "table" soup)
  end.

(** The name of a column: its header text, stripped and lower-cased. *)
Definition header_name (h : string) : string := Py.lower (Py.strip h).


Definition cell (kids : list Soup.Node) : Soup.Node := Soup.Elem "td" [] kids.


(** A results table laid out by its header row: the columns are headed
    [hs], in that order, and the data row [r] shows the content [r name] in
    the column named [name]. *)
Definition results_table (hs : list string)
    (rows : list (string -> list Soup.Node)) : Soup.Node :=
  Soup.Elem "table" []
    (tr (map th hs)
       :: map (fun r => tr (map (fun h => cell (r (header_name h))) hs)) rows).


Definition default_headers : list string :=
  ["More Info"; "Citation"; "Date Issued"; "Status"; "Amount Due"].

(** The header order of the specification's scenario and two rows. *)
Definition permuted_headers : list string :=
  ["More Info"; "Citation"; "Status"; "Date Issued"; "Amount Due"].

Definition sample_row_1 (name : string) : list Soup.Node :=
  if String.eqb name "citation" then [Soup.Text "B200"]
  else if String.eqb name "date issued" then [Soup.Text "01/02/2024"]
  else if String.eqb name "status" then [Soup.Text "OPEN"]
  else if String.eqb name "amount due" then [Soup.Text "$36.00"]
  else [Soup.Elem "a"
          [("href", "javascript:__doPostBack('ctl00$gvTag$ctl02$lnk','')")]
          [Soup.Text "+"]].

Definition sample_row_2 (name : string) : list Soup.Node :=
  if String.eqb name "citation" then [Soup.Text " A100 "]
  else if String.eqb name "date issued" then [Soup.Text "01/01/2024"]
  else if String.eqb name "status" then [Soup.Text "PAID"]
  else if String.eqb name "amount due"
       then [Soup.Elem "b" [] [Soup.Text "$0.00"]]
  else [].

(** [a] comes no later than [b] in the order of the final sort. *)
Definition key_le (a b : CitationInfo) : Prop :=
  Py.str_leb (citation_key a) (citation_key b) = true.

(** What the merged result owes to the records that were collected: the
    counts add up, the two partitions together hold the collected records,
    each once, split by [needs_payment], and each partition is in ascending
    order of citation id. *)
Definition well_partitioned (collected : list CitationInfo)
    (res : SearchResult) : Prop :=
  total_citations (summary res) =
    (total_paid (summary res) + total_open (summary res))%nat /\
  total_citations (summary res) = length collected /\
  total_paid (summary res) = length (paid_citations res) /\
  total_open (summary res) = length (open_citations res) /\
  Permutation collected (paid_citations res ++ open_citations res) /\
  Forall (fun c => needs_payment c = false) (paid_citations res) /\
  Forall (fun c => needs_payment c = true) (open_citations res) /\
  StronglySorted key_le (paid_citations res) /\
  StronglySorted key_le (open_citations res).

(** A network that answers the successive requests with [outs] and with
    [rest] once they are used up. *)
Definition net_of (outs : list Outcome) (rest : Outcome) : Net :=
  fun n _ => nth n outs rest.

Definition ok (page : Soup.Node) : Outcome :=
  Responds (mkResponse 200 "OK" page).

Definition results_page : Soup.Node :=
  document
    [Soup.Elem "table" [] [tr [td "Search results"]];
     results_table permuted_headers [sample_row_1; sample_row_2];
     Soup.Elem "span" [("id", "lbl_totaldue_vTag")] [Soup.Text "$36.00"]].

Definition detail_page : Soup.Node :=
  document
    [Soup.Elem "span" [("id", "lb_Citation")] [Soup.Text "B200"];
     Soup.Elem "span" [("id", "lb_Violation")] [Soup.Text "EXPIRED METER"]].

Definition timed_out : Outcome := Raises (mkExn Timeout "").

(** The landing page, the results page, the detail page of one citation,
    and a time-out for every request after that. *)
Definition sample_net : Net :=
  net_of [ok landing_page; ok results_page; ok detail_page] timed_out.

(** The form data of the search that [sample_net] answers, and the world
    once that search is done. *)
Definition sample_form : Py.dict string :=
  match search sample_net " abc123 " [] with
  | (Ok (_, data), _) => data
  | (Raise _, _) => []
  end.

Definition sample_world : World := snd (search sample_net " abc123 " []).

Definition sample_table : Soup.Node :=
  results_table permuted_headers [sample_row_1; sample_row_2].

(** The record of a citation whose detail fetch raised [e]: the summary
    fields of its row, [needs_payment] from the row's status, the due-date
    placeholder and [str(e)] as the error description. *)
Definition contained_failure (row : SummaryRow) (e : Exn)
    (rec : CitationInfo) : Prop :=
  Py.get "Citation" rec = Some (VStr (Citation row)) /\
  Py.get "Date Issued" rec = Some (VStr (Date_Issued row)) /\
  Py.get "Status" rec = Some (VStr (Status row)) /\
  Py.get "Amount Due" rec = Some (VStr (Amount_Due row)) /\
  Py.get "needs_payment" rec = Some (VBool (String.eqb (Status row) "OPEN")) /\
  Py.get "due_date" rec = Some (VStr "Not available") /\
  Py.get "error" rec = Some (VStr (exn_msg e)).


(** [rec] is what the worker of [row] returned, from some state of the
    world, when given [data] as its base form data. *)
Definition produced_by (net : Net) (data : Py.dict string) (row : SummaryRow)
    (rec : CitationInfo) : Prop :=
  exists w w',
    fetch_citation_details_worker net
      (mkArgs (Citation row) (Some data) row) w = (Ok rec, w').

(** The record the collecting loop appends for a future. *)
Definition future_record (fut : Future) : CitationInfo :=
  match fold_left collect_future [fut] [] with
  | rec :: _ => rec
  | [] => []
  end.

Definition sample_row : SummaryRow :=
  {| Citation := "B200"; Date_Issued := "01/02/2024"; Status := "OPEN";
     Amount_Due := "$36.00"; _expand_target := None |}.

Definition sample_args : WorkerArgs :=
  mkArgs "B200" (Some sample_form) sample_row.

(** A network on which every request times out, the exception carrying no
    message. *)
Definition dead_net : Net := net_of [] timed_out.

(** The world of [sample_net] once the one detail page it serves has been
    fetched. *)
Definition late_world : World := sample_world ++ [Sent (mkRequest GET [])].

(** The request a postback for [event_target] sends from page [soup]. *)
Definition postback_request (soup : Soup.Node)
    (event_target event_argument : string) : Request :=
  mkRequest POST
    (Py.set "__EVENTARGUMENT" event_argument
       (Py.set "__EVENTTARGET" event_target
          (Py.update (collect_form_fields soup)
             (extract_hidden_fields soup)))).

(** What comes of [rq] when it is the [n]-th request: the page of a
    response that passes the status check, or the exception of a failed
    transport or of a 4xx or 5xx status. *)
Definition answer (net : Net) (n : nat) (rq : Request) : Result Soup.Node :=
  match net n rq with
  | Raises e => Raise e
  | Responds r =>
      match fst (raise_for_status r []) with
      | Ok _ => Ok (body r)
      | Raise e => Raise e
      end
  end.

(** A network that answers 503 once and serves the results page after. *)
Definition flaky_net : Net :=
  net_of [Responds (mkResponse 503 "Service Unavailable" landing_page)]
         (ok results_page).

(** A network whose first request times out and which answers every
    later one. *)
Definition slow_start_net : Net :=
  net_of [Raises (mkExn Timeout "Read timed out. (read timeout=30)")]
         (ok landing_page).

Definition get_request : Request := mkRequest GET [].

(** The two terminal outcomes without citations. *)
Definition no_results_outcome (tag_number msg : string) : SearchResult :=
  {| tag_number := Py.upper (Py.strip tag_number);
     summary := {| total_citations := 0; total_paid := 0; total_open := 0;
                   total_due := None |};
     paid_citations := [];
     open_citations := [];
     message := Some msg |}.

Definition empty_outcome (tag_number : string) (due : option string)
  : SearchResult :=
  {| tag_number := Py.upper (Py.strip tag_number);
     summary := {| total_citations := 0; total_paid := 0; total_open := 0;
                   total_due := due |};
     paid_citations := [];
     open_citations := [];
     message := None |}.

(** A results page with a header-only table and the total label, and one
    with no table and an error label that shows nothing. *)
Definition header_only_page : Soup.Node :=
  document
    [results_table default_headers [];
     Soup.Elem "span" [("id", "lbl_totaldue_vTag")] [Soup.Text "$0.00"]].

Definition blank_error_page : Soup.Node :=
  document [Soup.Elem "span" [("id", "lblErrorTag")] []].

(** A network serving the landing page and [blank_error_page] to a first
    search, the landing page and [header_only_page] to a second one. *)
Definition outcomes_net : Net :=
  net_of [ok landing_page; ok blank_error_page;
          ok landing_page; ok header_only_page] timed_out.

Definition after_first_search : World :=
  snd (search outcomes_net "ABC123" []).

(** The record of a citation whose detail page gave nothing. *)
Definition summary_only (row : SummaryRow) : CitationInfo :=
  [ ("Citation", VStr (Citation row));
    ("Date Issued", VStr (Date_Issued row));
    ("Status", VStr (Status row));
    ("Amount Due", VStr (Amount_Due row));
    ("needs_payment", VBool (String.eqb (Status row) "OPEN"));
    ("payment_required",
      VStr (if String.eqb (Status row) "OPEN" then Amount_Due row
            else "$0.00")) ].

(** The due-date placeholder was put into [rec]: only the placeholder
    comes with a boolean [due_date_estimated], every value taken from a
    detail page being a string. *)
Definition placeholder_added (rec : CitationInfo) : Prop :=
  Py.get "due_date_estimated" rec = Some (VBool false).

(** A network that answers first with a page without any detail and then
    with the detail page. *)
Definition mixed_net : Net :=
  net_of [ok blank_error_page; ok detail_page] timed_out.

Definition one_sent : World := [Sent get_request].

(** A detail page whose informational table labels rows Status, Needs
    Payment and Payment Required, next to the status element. *)
Definition labelled_row (label value : string) : Soup.Node :=
  tr [th label; td value].

Definition colliding_page : Soup.Node :=
  document
    [Soup.Elem "span" [("id", "lb_Status")] [Soup.Text "PAID"];
     Soup.Elem "table" [("class", "table table-bordered mb-0")]
       [labelled_row "Status" "DISPUTED";
        labelled_row "Needs Payment" "Yes";
        labelled_row "Payment Required" "$99.00"]].

Definition colliding_net : Net := net_of [] (ok colliding_page).

Definition paid_row : SummaryRow :=
  {| Citation := "A100"; Date_Issued := "01/01/2024"; Status := "PAID";
     Amount_Due := "$0.00"; _expand_target := None |}.

Definition paid_args : WorkerArgs := mkArgs "A100" (Some sample_form) paid_row.

(** A network on which every request fails with an exception that is not
    one of the request library. *)
Definition broken_net : Net :=
  net_of [] (Raises (mkExn OtherException "unexpected keyword argument")).

(** ** Notions used for the rest of the code *)

(** What [k] further attempts of a postback leave in the world: a pause
    and the form, [k] times. *)
Fixpoint retries_trace (rq : Request) (k : nat) : World :=
  match k with
  | O => []
  | S k' => Slept 500 :: Sent rq :: retries_trace rq k'
  end.

(** What [k] attempts leave in the world, the first one without a pause. *)
Definition attempts_trace (rq : Request) (k : nat) : World :=
  match k with
  | O => []
  | S k' => Sent rq :: retries_trace rq k'
  end.

(** The fields a detail fetch sets or may set in the form it is given. *)
Definition detail_fields : list string :=
  ["__EVENTTARGET"; "__EVENTARGUMENT"; txtcitn; txtTag; hfTab; DropDownState].

(** [c in s] for a character. *)
Fixpoint occurs (c : ascii) (s : string) : bool :=
  match s with
  | EmptyString => false
  | String x s' => Ascii.eqb x c || occurs c s'
  end.

(** Every character of [s] satisfies [p]. *)
Fixpoint all_chars (p : ascii -> bool) (s : string) : bool :=
  match s with
  | EmptyString => true
  | String x s' => p x && all_chars p s'
  end.

(** The link target the portal writes for a postback to [target] with
    argument [arg]. *)
Definition postback_href (target arg : string) : string :=
  "javascript:__doPostBack('" ++ target ++ "','" ++ arg ++ "')".

(** A first-column cell holding such a link around [kids]. *)
Definition expand_cell (target arg : string) (kids : list Soup.Node)
  : Soup.Node :=
  cell [Soup.Elem "a" [("href", postback_href target arg)] kids].

(** An ASCII capital letter. *)
Definition is_capital (c : ascii) : bool :=
  let n := nat_of_ascii c in ((65 <=? n) && (n <=? 90))%nat.

(** A character a cleaned key can hold: no capital letter, no space, no
    slash, no ampersand. *)
Definition key_char (c : ascii) : bool :=
  negb (is_capital c) && negb (Ascii.eqb c " ") && negb (Ascii.eqb c "/")
  && negb (Ascii.eqb c "&").

(** The field names of the fourteen known identifiers. *)
Definition known_fields : list string := map snd id_mappings.

(** [rec] shows the four summary fields of [row]. *)
Definition shows_summary (row : SummaryRow) (rec : CitationInfo) : Prop :=
  Py.get "Citation" rec = Some (VStr (Citation row)) /\
  Py.get "Date Issued" rec = Some (VStr (Date_Issued row)) /\
  Py.get "Status" rec = Some (VStr (Status row)) /\
  Py.get "Amount Due" rec = Some (VStr (Amount_Due row)).

(** The counts of a pipeline run, or the exception it raised. *)
Definition summary_of (r : Result SearchResult) : Result Summary :=
  match r with
  | Ok res => Ok (summary res)
  | Raise e => Raise e
  end.

(** ** Flask API routes *)

(** The JSON bodies of [get_parking_tickets]: the usage error, the fetch
    error with its cause, or the search result. *)
Inductive ApiBody : Type :=
| UsageError (error usage : string)
| FetchError (error message : string)
| Found (result : SearchResult).

(** [get_parking_tickets()]: [tag] is [request.args.get('tag')]; the answer
    is the body and the HTTP status. *)
Definition get_parking_tickets (net : Net) (sched_run sched_done : list nat)
    (tag : option string) (w : World) : (ApiBody * Z) * World :=
  match tag with
  | None | Some EmptyString =>
      ((UsageError "Missing required parameter 'tag'"
          "Use /api/parking-tickets?tag=YOUR_TAG_NUMBER", 400%Z), w)
  | Some tag =>
      match fetch_all_citations net sched_run sched_done tag w with
      | (Ok result, w') => ((Found result, 200%Z), w')
      | (Raise e, w') =>
          ((FetchError "Failed to fetch parking ticket data" (exn_msg e),
            500%Z), w')
      end
  end.

(** A check box or a radio button. *)
Definition is_box (el : Soup.Node) : bool :=
  let t := Py.lower (Soup.attr_or "type" "" el) in
  String.eqb t "checkbox" || String.eqb t "radio".

(** The control [el] submits a value: an input that is not an unchecked
    box, a select with an option, or a textarea. *)
Definition submits (el : Soup.Node) : bool :=
  (Soup.is_tag "input" el && (negb (is_box el) || Soup.has_attr "checked" el))
  || (Soup.is_tag "select" el
      && match Soup.find "option" el with Some _ => true | None => false end)
  || Soup.is_tag "textarea" el.

(** Some control of the page named [k] submits a value. *)
Definition submitted (soup : Soup.Node) (k : string) : Prop :=
  exists el,
    In el (Soup.descendants soup) /\ Soup.attr "name" el = Some k /\
    submits el = true.

(** A form with a text field, a box that is not checked and a select
    without options. *)
Definition boxes_page : Soup.Node :=
  document
    [Soup.Elem "input" [("type", "text"); ("name", "plate")] [];
     Soup.Elem "input" [("type", "CheckBox"); ("name", "remember")] [];
     Soup.Elem "select" [("name", "county")] []].

(** The form a detail fetch builds from a landing page it has fetched
    itself, having been given none. *)
Definition no_form (base_form_data : option (Py.dict string)) : Prop :=
  base_form_data = None \/ base_form_data = Some [].


(** A network serving the landing page and then [header_only_page], and
    one whose every answer is a page without any detail. *)
Definition header_only_net : Net :=
  net_of [ok landing_page; ok header_only_page] timed_out.

Definition no_detail_net : Net := net_of [] (ok blank_error_page).

(** The order of strings by character codes, first difference deciding. *)
Inductive lex_le : string -> string -> Prop :=
| lex_empty (b : string) : lex_le EmptyString b
| lex_first (x y : ascii) (a b : string) :
    (nat_of_ascii x < nat_of_ascii y)%nat -> lex_le (String x a) (String y b)
| lex_next (x : ascii) (a b : string) :
    lex_le a b -> lex_le (String x a) (String x b).

(** The citation ids of two records are strings in ascending order. *)
Definition ids_ascend (a b : CitationInfo) : Prop :=
  exists x y,
    Py.get "Citation" a = Some (VStr x) /\
    Py.get "Citation" b = Some (VStr y) /\ lex_le x y.

(** The truth of an entry of a record, as Python sees it: [True], or a
    string that is not empty. *)
Definition truthy (v : option Value) : Prop :=
  match v with
  | Some (VBool b) => b = true
  | Some (VStr s) => s <> EmptyString
  | None => False
  end.

(** A data row of plain texts. *)
Definition text_row (citation date status amount : string) (name : string)
  : list Soup.Node :=
  if String.eqb name "citation" then [Soup.Text citation]
  else if String.eqb name "date issued" then [Soup.Text date]
  else if String.eqb name "status" then [Soup.Text status]
  else if String.eqb name "amount due" then [Soup.Text amount]
  else [].

(** A results table of four citations, out of order, two of them open. *)
Definition busy_table : Soup.Node :=
  results_table default_headers
    [text_row "C300" "03/03/2024" "OPEN" "$45.00";
     text_row "A100" "01/01/2024" "PAID" "$0.00";
     text_row "D400" "04/04/2024" "PAID" "$0.00";
     text_row "B200" "02/02/2024" "OPEN" "$36.00"].

Definition busy_page : Soup.Node :=
  document
    [busy_table;
     Soup.Elem "span" [("id", "lbl_totaldue_vTag")] [Soup.Text "$81.00"]].

(** The landing page, [busy_page], and the detail page for every request
    after that. *)
Definition busy_net : Net :=
  net_of [ok landing_page; ok busy_page] (ok detail_page).

Definition busy_world : World := snd (search busy_net " abc123 " []).

(** The column names a results table must show. *)
Definition required_columns : list string :=
  ["citation"; "date issued"; "status"; "amount due"].

(** Every required column name is the lower-cased text of some [th] cell
    inside [table]. *)
Definition shows_columns (table : Soup.Node) : Prop :=
  forall name, In name required_columns ->
    exists c, In c (Soup.descendants table) /\
              Soup.tag_of c = Some "th"%string /\
              Py.lower (Soup.get_text_strip c) = name.

(** A page that lists two of the columns in a first table and holds the
    results table after it. *)
Definition listing_page : Soup.Node :=
  document
    [Soup.Elem "table" []
       [tr [th "Citation"; th "Status"]; tr [td "n/a"; td "n/a"]];
     results_table permuted_headers [sample_row_1; sample_row_2];
     Soup.Elem "table" [] [tr (map th default_headers)]].

(** A layout table with a title row and, in the cell of its second row, the
    results table. *)
Definition layout_table : Soup.Node :=
  Soup.Elem "table" []
    [tr [cell [Soup.Text "Your citations"]];
     tr [cell [results_table permuted_headers [sample_row_1; sample_row_2]]]].

Definition nested_page : Soup.Node := document [layout_table].

(** * Properties *)

Open Scope nat_scope.

(** ** Lists, strings and dicts *)

Lemma hd_filter_first {A} (p : A -> bool) (l : list A) (x : A) :
  hd_error (filter p l) = Some x <-> first_such p l x.
Proof.
  induction l as [|a l IH]; simpl.
  - split; [discriminate|].
    intros (b & c & E & _). destruct b; discriminate.
  - destruct (p a) eqn:Pa; simpl.
    + split.
      * intros [= ->]. exists [], l. auto.
      * intros (b & c & E & Px & Fb). destruct b as [|y b]; simpl in E.
        -- now inversion E.
        -- inversion E; subst. inversion Fb; subst. congruence.
    + rewrite IH. split.
      * intros (b & c & -> & Px & Fb). exists (a :: b), c. auto.
      * intros (b & c & E & Px & Fb). destruct b as [|y b]; simpl in E.
        -- inversion E; subst. congruence.
        -- inversion E; subst. inversion Fb; subst. exists b, c. auto.
Qed.

Lemma hd_filter_none {A} (p : A -> bool) (l : list A) :
  hd_error (filter p l) = None <-> none_such p l.
Proof.
  unfold none_such. induction l as [|a l IH]; simpl.
  - split; auto.
  - destruct (p a) eqn:Pa; simpl.
    + split; [discriminate|]. intros F. inversion F; subst. congruence.
    + rewrite IH. split; [auto|]. intros F. now inversion F.
Qed.

Lemma filter_filter {A} (p q : A -> bool) (l : list A) :
  filter q (filter p l) = filter (fun x => p x && q x) l.
Proof.
  induction l as [|a l IH]; simpl; [reflexivity|].
  destruct (p a); simpl; [destruct (q a)|]; now rewrite IH.
Qed.

Lemma find_by_id_input (i : string) (soup : Soup.Node) :
  Soup.find_by_id "input" i soup =
  hd_error (filter (input_with_id i) (Soup.descendants soup)).
Proof.
  unfold Soup.find_by_id, Soup.find_all. now rewrite filter_filter.
Qed.

(** ** The form-state extractor *)

(** C9.  For each of the three hidden-state identifiers the extractor
    returns a value (the key is never omitted and nothing is raised): the
    [value] attribute of the first [input] element of the page with that
    identifier, and the empty string when the page has no such element or
    that element has no [value] attribute. *)
Theorem extract_hidden_fields_exact (soup : Soup.Node) (i : string) :
  In i hidden_ids ->
  exists v,
    Py.get i (extract_hidden_fields soup) = Some v /\
    ((exists el, first_such (input_with_id i) (Soup.descendants soup) el /\
                 Soup.attr "value" el = Some v)
     \/ (v = "" /\
         (none_such (input_with_id i) (Soup.descendants soup)
          \/ exists el,
               first_such (input_with_id i) (Soup.descendants soup) el /\
               Soup.attr "value" el = None))).
Proof.
  intros Hi.
  assert (G : Py.get i (extract_hidden_fields soup) = Some (val soup i)).
  { simpl in Hi. destruct Hi as [<-|[<-|[<-|[]]]]; reflexivity. }
  exists (val soup i). split; [exact G|].
  unfold val. rewrite find_by_id_input.
  destruct (hd_error (filter (input_with_id i) (Soup.descendants soup)))
    as [el|] eqn:F.
  - apply hd_filter_first in F.
    unfold Soup.has_attr, Py.mem, Soup.attr_or, Soup.attr.
    destruct (Py.get "value" (Soup.attrs_of el)) as [v|] eqn:V.
    + left. exists el. split; [exact F|]. exact V.
    + right. split; [reflexivity|]. right. exists el. split; [exact F|].
      exact V.
  - apply hd_filter_none in F. right. split; [reflexivity|]. now left.
Qed.

Lemma extract_hidden_fields_exact_witness :
  exists v,
    Py.get "__VIEWSTATE" (extract_hidden_fields landing_page) = Some v /\
    ((exists el,
        first_such (input_with_id "__VIEWSTATE")
          (Soup.descendants landing_page) el /\
        Soup.attr "value" el = Some v)
     \/ (v = "" /\
         (none_such (input_with_id "__VIEWSTATE")
            (Soup.descendants landing_page)
          \/ exists el,
               first_such (input_with_id "__VIEWSTATE")
                 (Soup.descendants landing_page) el /\
               Soup.attr "value" el = None))).
Proof.
  apply (extract_hidden_fields_exact landing_page "__VIEWSTATE").
  simpl. auto.
Defined.

Example extract_hidden_fields_landing :
  extract_hidden_fields landing_page =
  [("__VIEWSTATE", "dDwtMTA4"); ("__EVENTVALIDATION", "");
   ("__VIEWSTATEGENERATOR", "")].
Proof. reflexivity. Qed.

(** ** The results-table locator *)

Lemma issubset_spec (small big : list string) :
  issubset small big = true <-> (forall x, In x small -> In x big).
Proof.
  unfold issubset. rewrite forallb_forall. split; intros H x Hx.
  - apply H in Hx. apply existsb_exists in Hx as (y & Hy & E).
    apply String.eqb_eq in E. now subst.
  - apply existsb_exists. exists x. split; [now apply H|].
    apply String.eqb_refl.
Qed.

Lemma find_results_table_loop_spec (tables : list Soup.Node) :
  match find_results_table_loop tables with
  | Some table =>
      exists before after,
        tables = before ++ table :: after /\
        has_needed_headers table /\
        Forall (fun t => ~ has_needed_headers t) before
  | None => Forall (fun t => ~ has_needed_headers t) tables
  end.
Proof.
  induction tables as [|t rest IH]; [constructor|].
  cbn [find_results_table_loop]. cbv zeta.
  assert (Hempty : table_headers t = [] -> ~ has_needed_headers t).
  { intros E H. specialize (H "citation"). rewrite E in H.
    apply H. simpl. auto. }
  assert (Hstep :
    ~ has_needed_headers t ->
    match find_results_table_loop rest with
    | Some table =>
        exists before after,
          t :: rest = before ++ table :: after /\
          has_needed_headers table /\
          Forall (fun t => ~ has_needed_headers t) before
    | None => Forall (fun t => ~ has_needed_headers t) (t :: rest)
    end).
  { intros Hn. destruct (find_results_table_loop rest) as [table|].
    - destruct IH as (b & a & -> & Ht & Fb).
      exists (t :: b), a. repeat split; auto.
    - constructor; auto. }
  destruct (table_headers t) as [|h hs] eqn:E; [now apply Hstep, Hempty|].
  destruct (issubset needed (h :: hs)) eqn:S; cbv beta iota.
  - exists [], rest. repeat split; [|constructor].
    unfold has_needed_headers. rewrite E. now apply issubset_spec.
  - apply Hstep. intros H. unfold has_needed_headers in H. rewrite E in H.
    apply issubset_spec in H. congruence.
Qed.

Lemma find_results_table_located (soup : Soup.Node) :
  located soup (find_results_table soup).
Proof. apply find_results_table_loop_spec. Qed.

(** ** Searching a page built from known parts *)

Lemma find_all_kids (name t : string) (a : list (string * string))
    (kids : list Soup.Node) :
  Soup.find_all name (Soup.Elem t a kids) =
  flat_map (fun k => (if Soup.is_tag name k then [k] else [])
                       ++ Soup.find_all name k) kids.
Proof.
  unfold Soup.find_all. simpl.
  induction kids as [|k kids IH]; simpl; [reflexivity|].
  rewrite filter_app, IH. destruct (Soup.is_tag name k); reflexivity.
Qed.











Lemma get_set_eq {V} (k : string) (v : V) (d : Py.dict V) :
  Py.get k (Py.set k v d) = Some v.
Proof.
  induction d as [|[k' v'] d IH]; simpl.
  - now rewrite String.eqb_refl.
  - destruct (String.eqb k k') eqn:E; simpl; rewrite E; auto.
Qed.

Lemma get_set_neq {V} (k k' : string) (v : V) (d : Py.dict V) :
  k <> k' -> Py.get k (Py.set k' v d) = Py.get k d.
Proof.
  intros N. induction d as [|[k2 v2] d IH]; simpl.
  - apply String.eqb_neq in N. now rewrite N.
  - destruct (String.eqb k' k2) eqn:E; simpl.
    + apply String.eqb_eq in E. subst k2.
      apply String.eqb_neq in N. now rewrite N.
    + now rewrite IH.
Qed.

(** ** The results parser *)









Lemma find_results_table_first (table : Soup.Node)
    (others : list Soup.Node) :
  has_needed_headers table ->
  Soup.is_tag "table" table = true ->
  find_results_table (document (table :: others)) = Some table.
Proof.
  intros H T. unfold find_results_table, document.
  rewrite find_all_kids. cbn [flat_map]. rewrite T. cbn [app].
  cbn [find_results_table_loop]. cbv zeta.
  destruct (table_headers table) as [|h l] eqn:E.
  - exfalso. specialize (H "citation"%string). rewrite E in H. apply H.
    simpl. auto.
  - replace (issubset needed (h :: l)) with true; [reflexivity|].
    symmetry. apply issubset_spec. unfold has_needed_headers in H.
    now rewrite E in H.
Qed.

Lemma shows_columns_headers (t : Soup.Node) :
  shows_columns t <-> has_needed_headers t.
Proof.
  unfold shows_columns, has_needed_headers, table_headers, Soup.find_all.
  split; intros H name Hn; specialize (H name Hn).
  - destruct H as (c & Hc & Ht & E). apply in_map_iff. exists c.
    split; [exact E|]. apply filter_In. split; [exact Hc|].
    destruct c as [|tag a k]; [discriminate|]. simpl in *.
    injection Ht as ->. reflexivity.
  - apply in_map_iff in H as (c & E & Hc).
    apply filter_In in Hc as [Hc Ht]. exists c.
    split; [exact Hc|]. split; [|exact E].
    destruct c as [|tag a k]; [discriminate|]. simpl in *.
    apply String.eqb_eq in Ht. now subst.
Qed.


(** C6.  On a page whose results table sits in a cell of a layout table,
    the results table is a table of the page and parsing it by its header
    row gives its two citations; the locator nevertheless returns the
    layout table, whose first row is a title without header cells, and the
    parser, finding no header name there, reads the rows by the fixed
    positions 0 to 4: it reports three citations, the first with the
    expand sign as its id, the others with the status in the place of the
    date and the date in the place of the status. *)
Theorem nested_results_table_misparsed :
  In sample_table (Soup.find_all "table" nested_page) /\
  shows_columns sample_table /\
  parse_main_rows sample_table =
    [ {| Citation := "B200"; Date_Issued := "01/02/2024"; Status := "OPEN";
         Amount_Due := "$36.00";
         _expand_target := Some "ctl00$gvTag$ctl02$lnk"%string |};
      {| Citation := "A100"; Date_Issued := "01/01/2024"; Status := "PAID";
         Amount_Due := "$0.00"; _expand_target := None |} ] /\
  find_results_table nested_page = Some layout_table /\
  Soup.find_all "th" (hd (Soup.Text "") (Soup.find_all "tr" layout_table))
    = [] /\
  parse_main_rows layout_table =
    [ {| Citation := "+"; Date_Issued := "B200"; Status := "OPEN";
         Amount_Due := "01/02/2024";
         _expand_target := Some "ctl00$gvTag$ctl02$lnk"%string |};
      {| Citation := "B200"; Date_Issued := "OPEN"; Status := "01/02/2024";
         Amount_Due := "$36.00";
         _expand_target := Some "ctl00$gvTag$ctl02$lnk"%string |};
      {| Citation := "A100"; Date_Issued := "PAID"; Status := "01/01/2024";
         Amount_Due := "$0.00"; _expand_target := None |} ].
Proof.
  split; [simpl; auto|]. split.
  - apply shows_columns_headers. intros name Hn. simpl in Hn.
    destruct Hn as [<-|[<-|[<-|[<-|[]]]]]; vm_compute; auto 6.
  - repeat split; reflexivity.
Qed.

Example parse_main_rows_scenario :
  parse_main_rows
    (results_table permuted_headers [sample_row_1; sample_row_2]) =
  [ {| Citation := "B200"; Date_Issued := "01/02/2024"; Status := "OPEN";
       Amount_Due := "$36.00";
       _expand_target := Some "ctl00$gvTag$ctl02$lnk"%string |};
    {| Citation := "A100"; Date_Issued := "01/01/2024"; Status := "PAID";
       Amount_Due := "$0.00"; _expand_target := None |} ].
Proof. reflexivity. Qed.

(** ** Sorting and partitioning *)

Lemma str_leb_total (a b : string) :
  Py.str_leb a b = true \/ Py.str_leb b a = true.
Proof.
  revert b. induction a as [|x a IH]; intros [|y b]; simpl; auto.
  destruct (Nat.ltb_spec (nat_of_ascii x) (nat_of_ascii y));
    destruct (Nat.ltb_spec (nat_of_ascii y) (nat_of_ascii x));
    destruct (Nat.eqb_spec (nat_of_ascii x) (nat_of_ascii y));
    destruct (Nat.eqb_spec (nat_of_ascii y) (nat_of_ascii x));
    auto; lia.
Qed.

Lemma str_leb_trans (a b c : string) :
  Py.str_leb a b = true -> Py.str_leb b c = true -> Py.str_leb a c = true.
Proof.
  revert b c. induction a as [|x a IH]; intros [|y b] [|z c]; simpl;
    auto; try discriminate.
  destruct (Nat.ltb_spec (nat_of_ascii x) (nat_of_ascii y));
    destruct (Nat.ltb_spec (nat_of_ascii y) (nat_of_ascii z));
    destruct (Nat.ltb_spec (nat_of_ascii x) (nat_of_ascii z));
    destruct (Nat.eqb_spec (nat_of_ascii x) (nat_of_ascii y));
    destruct (Nat.eqb_spec (nat_of_ascii y) (nat_of_ascii z));
    destruct (Nat.eqb_spec (nat_of_ascii x) (nat_of_ascii z));
    auto; try discriminate; try lia.
  apply IH.
Qed.

Lemma insert_by_key_perm (x : CitationInfo) (l : list CitationInfo) :
  Permutation (insert_by_key x l) (x :: l).
Proof.
  induction l as [|y l IH]; simpl; [reflexivity|].
  destruct (Py.str_leb (citation_key x) (citation_key y)); [reflexivity|].
  rewrite IH. apply perm_swap.
Qed.

Lemma sort_by_key_perm (l : list CitationInfo) :
  Permutation (sort_by_key l) l.
Proof.
  induction l as [|x l IH]; simpl; [reflexivity|].
  rewrite insert_by_key_perm. now constructor.
Qed.

Lemma insert_by_key_sorted (x : CitationInfo) (l : list CitationInfo) :
  StronglySorted key_le l -> StronglySorted key_le (insert_by_key x l).
Proof.
  induction 1 as [|y l S IH F]; simpl.
  - repeat constructor.
  - destruct (Py.str_leb (citation_key x) (citation_key y)) eqn:E.
    + constructor; [now constructor|]. constructor; [exact E|].
      eapply Forall_impl; [|exact F]. intros z Hz.
      unfold key_le in *. eapply str_leb_trans; eauto.
    + constructor; [exact IH|].
      apply (Permutation_Forall (x := x :: l)).
      * symmetry. apply insert_by_key_perm.
      * constructor; [|exact F].
        destruct (str_leb_total (citation_key x) (citation_key y));
          [congruence|assumption].
Qed.

Lemma sort_by_key_sorted (l : list CitationInfo) :
  StronglySorted key_le (sort_by_key l).
Proof.
  induction l as [|x l IH]; simpl; [constructor|].
  now apply insert_by_key_sorted.
Qed.

Lemma filter_sorted {A} (R : A -> A -> Prop) (p : A -> bool) (l : list A) :
  StronglySorted R l -> StronglySorted R (filter p l).
Proof.
  induction 1 as [|x l S IH F]; simpl; [constructor|].
  destruct (p x); [|exact IH].
  constructor; [exact IH|].
  apply Forall_forall. intros y Hy. apply filter_In in Hy as [Hy _].
  revert y Hy. now apply Forall_forall.
Qed.

Lemma partition_perm {A} (p : A -> bool) (l : list A) :
  Permutation l (filter (fun x => negb (p x)) l ++ filter p l).
Proof.
  induction l as [|x l IH]; simpl; [reflexivity|].
  destruct (p x); simpl.
  - now apply Permutation_cons_app.
  - now constructor.
Qed.

(** ** Schedules and the worker pool *)

Lemma remove_nth_perm {A} (i : nat) (xs : list A) (d : A) :
  i < length xs ->
  Permutation (nth i xs d :: firstn i xs ++ skipn (S i) xs) xs.
Proof.
  revert i. induction xs as [|x xs IH]; intros i L; simpl in L; [lia|].
  destruct i as [|i]; simpl; [reflexivity|].
  rewrite perm_swap. constructor. apply IH. lia.
Qed.

Lemma pick_perm {A} (sched : list nat) (xs : list A) :
  Permutation (pick sched xs) xs.
Proof.
  revert xs. induction sched as [|k sched IH]; intros xs.
  - destruct xs; reflexivity.
  - destruct xs as [|x xs]; [reflexivity|].
    cbn [pick].
    set (i := k mod length (x :: xs)).
    rewrite IH. apply remove_nth_perm.
    apply Nat.mod_upper_bound. discriminate.
Qed.

Lemma collect_futures_length (futs : list Future)
    (acc : list CitationInfo) :
  length (fold_left collect_future futs acc) = length acc + length futs.
Proof.
  revert acc. induction futs as [|f futs IH]; intros acc; simpl; [lia|].
  rewrite IH. unfold collect_future.
  destruct (snd f); rewrite length_app; simpl; lia.
Qed.

Lemma run_tasks_length (net : Net) (tasks : list WorkerArgs) (w : World) :
  length (fst (run_tasks net tasks w)) = length tasks.
Proof.
  revert w. induction tasks as [|a tasks IH]; intros w; simpl; [reflexivity|].
  destruct (fetch_citation_details_worker net a w) as [res w1].
  specialize (IH w1). destruct (run_tasks net tasks w1) as [futs w2].
  simpl in *. now rewrite IH.
Qed.

Lemma dispatch_length (net : Net) (s1 s2 : list nat) (data : Py.dict string)
    (rows : list SummaryRow) (w : World) :
  length (fst (dispatch net s1 s2 data rows w)) = length rows.
Proof.
  unfold dispatch.
  pose proof (run_tasks_length net
    (pick s1 (map (fun row => mkArgs (Citation row) (Some data) row) rows)) w)
    as L.
  destruct (run_tasks net _ w) as [futs w']. simpl in *.
  rewrite collect_futures_length. simpl.
  rewrite (Permutation_length (pick_perm s2 futs)), L.
  rewrite (Permutation_length (pick_perm s1 _)). apply length_map.
Qed.

(** ** The aggregation pipeline *)

Lemma merge_well_partitioned (tag : string) (due : option string)
    (citations : list CitationInfo) :
  well_partitioned citations (merge tag due citations).
Proof.
  unfold well_partitioned, merge. cbn [summary total_citations total_paid
    total_open paid_citations open_citations].
  pose proof (partition_perm needs_payment (sort_by_key citations)) as P.
  pose proof (sort_by_key_perm citations) as Q.
  repeat split.
  - rewrite (Permutation_length P), length_app. reflexivity.
  - apply Permutation_length. exact Q.
  - rewrite <- P. symmetry. exact Q.
  - apply Forall_forall. intros c Hc. apply filter_In in Hc as [_ Hc].
    now apply negb_true_iff.
  - apply Forall_forall. intros c Hc. now apply filter_In in Hc as [_ Hc].
  - apply filter_sorted, sort_by_key_sorted.
  - apply filter_sorted, sort_by_key_sorted.
Qed.

Lemma fetch_all_citations_found (net : Net) (s1 s2 : list nat) (tag : string)
    (w w1 : World) (soup : Soup.Node) (data : Py.dict string)
    (table : Soup.Node) :
  search net tag w = (Ok (soup, data), w1) ->
  find_results_table soup = Some table ->
  parse_main_rows table <> [] ->
  fetch_all_citations net s1 s2 tag w =
  (Ok (merge tag (text_of (Soup.select_one_id "lbl_totaldue_vTag" soup))
         (fst (dispatch net s1 s2 data (parse_main_rows table) w1))),
   snd (dispatch net s1 s2 data (parse_main_rows table) w1)).
Proof.
  intros Hs Hf Hr. unfold fetch_all_citations, bind. rewrite Hs, Hf.
  destruct (parse_main_rows table) as [|r rows] eqn:E; [congruence|].
  destruct (dispatch net s1 s2 data (r :: rows) w1) as [cs w2].
  reflexivity.
Qed.

Example sample_pipeline_run :
  fst (fetch_all_citations sample_net [1] [] " abc123 " []) =
  Ok {| tag_number := "ABC123";
        summary := {| total_citations := 2; total_paid := 1;
                      total_open := 1; total_due := Some "$36.00" |};
        paid_citations :=
          [[("Citation", VStr "A100"); ("Date Issued", VStr "01/01/2024");
            ("Status", VStr "PAID"); ("Amount Due", VStr "$0.00");
            ("needs_payment", VBool false);
            ("payment_required", VStr "$0.00");
            ("citation_number", VStr "B200");
            ("violation_type", VStr "EXPIRED METER");
            ("due_date", VStr "Not available");
            ("due_date_estimated", VBool false)]];
        open_citations :=
          [[("Citation", VStr "B200"); ("Date Issued", VStr "01/02/2024");
            ("Status", VStr "OPEN"); ("Amount Due", VStr "$36.00");
            ("needs_payment", VBool true);
            ("payment_required", VStr "$36.00");
            ("due_date", VStr "Not available");
            ("due_date_estimated", VBool false);
            ("error", VStr "")]];
        message := None |}.
Proof. reflexivity. Qed.

(** ** The citation detail fetcher *)

Lemma worker_on_failure (net : Net) (args : WorkerArgs) (w w' : World)
    (e : Exn) :
  fetch_citation_details_optimized net (arg_citation_number args)
    (arg_base_form_data args) w = (Raise e, w') ->
  exists rec,
    fetch_citation_details_worker net args w = (Ok rec, w') /\
    contained_failure (arg_row args) e rec /\
    Py.keys rec =
      ["Citation"; "Date Issued"; "Status"; "Amount Due"; "needs_payment";
       "payment_required"; "due_date"; "due_date_estimated"; "error"]%string.
Proof.
  intros H. eexists. split.
  - unfold fetch_citation_details_worker, try_except, bind.
    rewrite H. reflexivity.
  - split; [|reflexivity]. repeat split.
Qed.

Lemma worker_returns (net : Net) (args : WorkerArgs) (w : World) :
  exists rec w', fetch_citation_details_worker net args w = (Ok rec, w').
Proof.
  unfold fetch_citation_details_worker, try_except, bind.
  destruct (fetch_citation_details_optimized net _ _ w) as [[d|e] w1];
    eexists; eexists; reflexivity.
Qed.

Lemma collect_futures_records (futs : list Future)
    (acc : list CitationInfo) :
  fold_left collect_future futs acc = acc ++ map future_record futs.
Proof.
  revert acc. induction futs as [|f futs IH]; intros acc; simpl.
  - now rewrite app_nil_r.
  - rewrite IH.
    assert (E : collect_future acc f = acc ++ [future_record f]).
    { unfold future_record, collect_future. simpl.
      destruct (snd f); reflexivity. }
    rewrite E, <- app_assoc. reflexivity.
Qed.

Lemma run_tasks_produced (net : Net) (tasks : list WorkerArgs) (w : World) :
  Forall2
    (fun args fut =>
       exists w1 w2,
         fetch_citation_details_worker net args w1 =
           (Ok (future_record fut), w2))
    tasks (fst (run_tasks net tasks w)).
Proof.
  revert w. induction tasks as [|a tasks IH]; intros w; simpl; [constructor|].
  destruct (worker_returns net a w) as (rec & w1 & E). rewrite E.
  specialize (IH w1). destruct (run_tasks net tasks w1) as [futs w2].
  simpl in *. constructor; [|exact IH].
  exists w, w1. exact E.
Qed.

Lemma Forall2_map_both {A B C D} (R : C -> D -> Prop) (f : A -> C)
    (g : B -> D) (l : list A) (l' : list B) :
  Forall2 (fun x y => R (f x) (g y)) l l' -> Forall2 R (map f l) (map g l').
Proof. induction 1; simpl; constructor; auto. Qed.

Lemma Forall2_of_map_l {A B C} (R : B -> C -> Prop) (f : A -> B)
    (l : list A) (l' : list C) :
  Forall2 R (map f l) l' -> Forall2 (fun x y => R (f x) y) l l'.
Proof.
  revert l'. induction l as [|a l IH]; intros l' H; inversion H; subst;
    constructor; auto.
Qed.

(** The records the executor block collects are, up to the order of
    completion, the records the workers of the rows returned, one each. *)
Lemma dispatch_produced (net : Net) (s1 s2 : list nat)
    (data : Py.dict string) (rows : list SummaryRow) (w : World) :
  exists recs,
    Forall2 (produced_by net data) rows recs /\
    Permutation recs (fst (dispatch net s1 s2 data rows w)).
Proof.
  unfold dispatch.
  set (mk := fun row => mkArgs (Citation row) (Some data) row).
  pose proof (run_tasks_produced net (pick s1 (map mk rows)) w) as F.
  destruct (run_tasks net (pick s1 (map mk rows)) w) as [futs w'].
  cbn [fst] in *. rewrite collect_futures_records. cbn [app].
  apply (Forall2_map_both
           (fun args rec => exists w1 w2,
              fetch_citation_details_worker net args w1 = (Ok rec, w2))
           (fun a => a) future_record) in F.
  rewrite map_id in F.
  destruct (Permutation_Forall2 (pick_perm s1 (map mk rows)) F)
    as (recs & P & F').
  exists recs. split.
  - apply Forall2_of_map_l in F'. exact F'.
  - rewrite <- P. apply Permutation_map. symmetry. apply pick_perm.
Qed.






(** ** The postback executor *)

Lemma sent_app (w w' : World) : sent (w ++ w') = sent w + sent w'.
Proof. unfold sent. now rewrite filter_app, length_app. Qed.

Lemma raise_for_status_pure (r : Response) (w : World) :
  raise_for_status r w =
  (fst (raise_for_status r []), w).
Proof.
  unfold raise_for_status, raise, ret.
  destruct ((400 <=? status_code r)%Z && (status_code r <? 500)%Z);
    [reflexivity|].
  destruct ((500 <=? status_code r)%Z && (status_code r <? 600)%Z);
    reflexivity.
Qed.

Lemma send_checked (net : Net) (rq : Request) (w : World) :
  (r <- send net rq ;; raise_for_status r ;;; ret (body r)) w =
  (answer net (sent w) rq, w ++ [Sent rq]).
Proof.
  unfold bind, send, answer.
  destruct (net (sent w) rq) as [r|e]; [|reflexivity].
  rewrite raise_for_status_pure.
  destruct (fst (raise_for_status r [])) as [[]|e]; reflexivity.
Qed.

Lemma postback_attempt_first (net : Net) (soup : Soup.Node) (t a : string)
    (w : World) :
  postback_attempt net soup t a 0 w =
  (answer net (sent w) (postback_request soup t a),
   w ++ [Sent (postback_request soup t a)]).
Proof.
  unfold postback_attempt. cbn [Nat.ltb Nat.leb].
  unfold bind at 1. unfold ret at 1. apply send_checked.
Qed.

Lemma postback_attempt_again (net : Net) (soup : Soup.Node) (t a : string)
    (k : nat) (w : World) :
  postback_attempt net soup t a (S k) w =
  (answer net (sent w) (postback_request soup t a),
   w ++ [Slept 500; Sent (postback_request soup t a)]).
Proof.
  unfold postback_attempt. cbn [Nat.ltb Nat.leb].
  unfold bind at 1. unfold sleep at 1.
  change (session_post net ?d) with (send net (mkRequest POST d)).
  rewrite send_checked, sent_app, <- app_assoc. simpl. now rewrite Nat.add_0_r.
Qed.

Lemma Timeout_is_RequestException (e : Exn) :
  is_Timeout e = true -> is_RequestException e = true.
Proof.
  unfold is_Timeout, is_RequestException.
  destruct (exn_class e); auto; discriminate.
Qed.

(** C2, as the code has it.  With the default of three attempts, the
    postback executor sends the form again after any exception of the
    request library: a time-out, a transport failure and also the error
    raised for a received 4xx or 5xx response.  It pauses 500 ms before
    each new attempt, surfaces at once an exception from outside the
    request library, returns the page of the first attempt that succeeds,
    and re-raises the exception of the third attempt. *)
Theorem postback_retry_policy (net : Net) (soup : Soup.Node)
    (event_target event_argument : string) (w : World) :
  let rq := postback_request soup event_target event_argument in
  let n := sent w in
  postback net soup event_target event_argument 3 w =
  match answer net n rq with
  | Ok page => (Ok page, w ++ [Sent rq])
  | Raise e1 =>
      if is_RequestException e1 then
        match answer net (n + 1) rq with
        | Ok page => (Ok page, w ++ [Sent rq; Slept 500; Sent rq])
        | Raise e2 =>
            if is_RequestException e2 then
              match answer net (n + 2) rq with
              | Ok page =>
                  (Ok page,
                   w ++ [Sent rq; Slept 500; Sent rq; Slept 500; Sent rq])
              | Raise e3 =>
                  (Raise e3,
                   w ++ [Sent rq; Slept 500; Sent rq; Slept 500; Sent rq])
              end
            else (Raise e2, w ++ [Sent rq; Slept 500; Sent rq])
        end
      else (Raise e1, w ++ [Sent rq])
  end.
Proof.
  intros rq n. unfold postback.
  change (Z.to_nat 3) with 3. cbn [postback_loop].
  unfold try_except at 1. rewrite postback_attempt_first.
  fold rq. fold n.
  destruct (answer net n rq) as [page|e1]; [reflexivity|].
  change (Z.of_nat 0 =? 3 - 1)%Z with false. cbv iota.
  destruct (is_RequestException e1) eqn:R1.
  2:{ destruct (is_Timeout e1) eqn:T1; [|reflexivity].
      apply Timeout_is_RequestException in T1. congruence. }
  replace (if is_Timeout e1 then _ else _)
    with (try_except (postback_attempt net soup event_target event_argument 1)
            (fun e => if is_Timeout e then
                        if (Z.of_nat 1 =? 3 - 1)%Z then raise e
                        else postback_loop net soup event_target
                               event_argument 3 1 2
                      else if is_RequestException e then
                        if (Z.of_nat 1 =? 3 - 1)%Z then raise e
                        else postback_loop net soup event_target
                               event_argument 3 1 2
                      else raise e))
    by (destruct (is_Timeout e1); reflexivity).
  unfold try_except at 1. rewrite postback_attempt_again, sent_app.
  fold rq. change (sent [Sent rq]) with 1. fold n.
  rewrite <- app_assoc. cbn [app].
  destruct (answer net (n + 1) rq) as [page|e2]; [reflexivity|].
  change (Z.of_nat 1 =? 3 - 1)%Z with false. cbv iota.
  destruct (is_RequestException e2) eqn:R2.
  2:{ destruct (is_Timeout e2) eqn:T2; [|reflexivity].
      apply Timeout_is_RequestException in T2. congruence. }
  replace (if is_Timeout e2 then _ else _)
    with (postback_loop net soup event_target event_argument 3 1 2)
    by (destruct (is_Timeout e2); reflexivity).
  cbn [postback_loop].
  unfold try_except at 1. rewrite postback_attempt_again, sent_app.
  fold rq. change (sent [Sent rq; Slept 500; Sent rq]) with 2. fold n.
  rewrite <- app_assoc. cbn [app].
  destruct (answer net (n + 2) rq) as [page|e3]; [reflexivity|].
  change (Z.of_nat 2 =? 3 - 1)%Z with true. cbv iota.
  destruct (is_Timeout e3); [reflexivity|].
  destruct (is_RequestException e3); reflexivity.
Qed.

(** C2 does not hold as stated, a received non-2xx response being sent
    again: the first request is answered 503, the executor pauses, posts
    the form a second time and returns the page of the second answer
    instead of raising the status error. *)
Lemma postback_retries_bad_status :
  answer flaky_net 0 (postback_request landing_page "target" "") =
    Raise (mkExn HTTPError
      ("503 Server Error: Service Unavailable for url: " ++ BASE_URL)) /\
  postback flaky_net landing_page "target" "" 3 [] =
    (Ok results_page,
     [Sent (postback_request landing_page "target" ""); Slept 500;
      Sent (postback_request landing_page "target" "")]).
Proof. split; reflexivity. Qed.

Example postback_gives_up_after_three :
  postback dead_net landing_page "target" "" 3 [] =
  (Raise (mkExn Timeout ""),
   [Sent (postback_request landing_page "target" ""); Slept 500;
    Sent (postback_request landing_page "target" ""); Slept 500;
    Sent (postback_request landing_page "target" "")]).
Proof. reflexivity. Qed.

Example postback_surfaces_other_exception :
  postback broken_net landing_page "target" "" 3 [] =
  (Raise (mkExn OtherException "unexpected keyword argument"),
   [Sent (postback_request landing_page "target" "")]).
Proof. reflexivity. Qed.

(** ** Network calls of the pipeline *)

Lemma search_get_fails (net : Net) (tag : string) (w : World) (e : Exn) :
  net (sent w) get_request = Raises e ->
  search net tag w = (Raise e, w ++ [Sent get_request]).
Proof.
  intros H. unfold search, bind, session_get, send.
  fold get_request. now rewrite H.
Qed.

Lemma search_post_fails (net : Net) (tag : string) (w : World) (e : Exn)
    (r : Response) :
  net (sent w) get_request = Responds r ->
  fst (raise_for_status r []) = Ok tt ->
  (forall rq, net (S (sent w)) rq = Raises e) ->
  exists data,
    search net tag w =
    (Raise e, w ++ [Sent get_request; Sent (mkRequest POST data)]).
Proof.
  intros Hg Hs Hp. eexists. unfold search.
  unfold bind at 1. unfold session_get, send at 1. fold get_request.
  rewrite Hg.
  unfold bind at 1. rewrite raise_for_status_pure, Hs.
  unfold bind at 1. unfold session_post, send.
  rewrite sent_app. change (sent [Sent get_request]) with 1.
  rewrite Nat.add_1_r, Hp, <- app_assoc. reflexivity.
Qed.

Lemma detail_post_fails (net : Net) (cit : string) (kv : string * string)
    (base : Py.dict string) (w : World) (e : Exn) :
  (forall rq, net (sent w) rq = Raises e) ->
  exists data,
    fetch_citation_details_optimized net cit (Some (kv :: base)) w =
    (Raise e, w ++ [Sent (mkRequest POST data)]).
Proof.
  intros H. eexists. unfold fetch_citation_details_optimized.
  cbn [nonempty_form]. unfold bind at 1. unfold ret at 1.
  unfold bind at 1. unfold session_post, send. rewrite H. reflexivity.
Qed.

(** C3, as the code has it.  The pipeline sends each of its requests once
    and does not retry: when the initial GET fails the pipeline raises that
    failure after this one request; when the tag-search POST fails it
    raises after the GET and this one POST; when a detail POST fails the
    fetch raises after this one POST and the worker turns the failure into
    the citation's record. *)
Theorem pipeline_calls_sent_once (net : Net) (s1 s2 : list nat)
    (tag : string) (w0 w1 w2 : World) (e : Exn) (r : Response)
    (cit : string) (kv : string * string) (base : Py.dict string)
    (row : SummaryRow) :
  ((forall rq, net (sent w0) rq = Raises e) ->
   fetch_all_citations net s1 s2 tag w0 =
     (Raise e, w0 ++ [Sent get_request])) /\
  (net (sent w1) get_request = Responds r ->
   fst (raise_for_status r []) = Ok tt ->
   (forall rq, net (S (sent w1)) rq = Raises e) ->
   exists data,
     fetch_all_citations net s1 s2 tag w1 =
       (Raise e, w1 ++ [Sent get_request; Sent (mkRequest POST data)])) /\
  ((forall rq, net (sent w2) rq = Raises e) ->
   exists data rec,
     fetch_citation_details_optimized net cit (Some (kv :: base)) w2 =
       (Raise e, w2 ++ [Sent (mkRequest POST data)]) /\
     fetch_citation_details_worker net (mkArgs cit (Some (kv :: base)) row)
       w2 = (Ok rec, w2 ++ [Sent (mkRequest POST data)]) /\
     contained_failure row e rec).
Proof.
  repeat split.
  - intros H. unfold fetch_all_citations, bind at 1.
    now rewrite (search_get_fails net tag w0 e (H _)).
  - intros Hg Hs Hp.
    destruct (search_post_fails net tag w1 e r Hg Hs Hp) as (data & E).
    exists data. unfold fetch_all_citations, bind at 1. now rewrite E.
  - intros H.
    destruct (detail_post_fails net cit kv base w2 e H) as (data & E).
    destruct (worker_on_failure net (mkArgs cit (Some (kv :: base)) row)
                w2 _ e E) as (rec & Ew & C & _).
    exists data, rec. auto.
Qed.

Lemma pipeline_calls_sent_once_witness :
  fetch_all_citations sample_net [] [] "abc123" late_world =
    (Raise (mkExn Timeout ""), late_world ++ [Sent get_request]) /\
  (exists data,
     fetch_all_citations sample_net [] [] "abc123" sample_world =
       (Raise (mkExn Timeout ""),
        sample_world ++ [Sent get_request; Sent (mkRequest POST data)])) /\
  (exists data rec,
     fetch_citation_details_optimized sample_net "B200"
       (Some (("__VIEWSTATE", "dDwtMTA4") :: [])) late_world =
       (Raise (mkExn Timeout ""),
        late_world ++ [Sent (mkRequest POST data)]) /\
     fetch_citation_details_worker sample_net
       (mkArgs "B200" (Some (("__VIEWSTATE", "dDwtMTA4") :: [])) sample_row)
       late_world = (Ok rec, late_world ++ [Sent (mkRequest POST data)]) /\
     contained_failure sample_row (mkExn Timeout "") rec).
Proof.
  destruct (pipeline_calls_sent_once sample_net [] [] "abc123"
              late_world sample_world late_world (mkExn Timeout "")
              (mkResponse 200 "OK" detail_page) "B200"
              ("__VIEWSTATE", "dDwtMTA4") [] sample_row)
    as (H0 & H1 & H2).
  split; [|split].
  - apply H0. intros rq. reflexivity.
  - apply H1; [reflexivity|reflexivity|]. intros rq. reflexivity.
  - apply H2. intros rq. reflexivity.
Defined.

(** C3 does not hold as stated, a time-out not being retried: the
    initial GET times out, the pipeline raises after that single request,
    although the same request, sent again, would have been answered. *)
Lemma pipeline_does_not_retry :
  fetch_all_citations slow_start_net [] [] "abc123" [] =
    (Raise (mkExn Timeout "Read timed out. (read timeout=30)"),
     [Sent get_request]) /\
  answer slow_start_net 1 get_request = Ok landing_page.
Proof. split; reflexivity. Qed.

(** ** Outcomes without citations *)

Lemma header_only_no_rows (table : Soup.Node) :
  length (Soup.find_all "tr" table) <= 1 -> parse_main_rows table = [].
Proof.
  unfold parse_main_rows.
  destruct (Soup.find_all "tr" table) as [|tr0 [|tr1 trs]]; simpl;
    [reflexivity|reflexivity|lia].
Qed.

(** C7, as the code has it.  On whatever network, when the results page
    has no matching table the pipeline returns the zero summary with a null
    total_due, empty lists and a message: the stripped text of the element
    with id lblErrorTag when the page has one (that text may be empty), else
    "No results table found.".  On whatever network, when the table is
    found and yields no row, as a header-only table does, it returns the
    zero counts, empty lists, no message, and as total_due the text of the
    element with id lbl_totaldue_vTag when the page has one, null
    otherwise.  The two outcomes differ. *)
Theorem outcomes_without_citations (net_a : Net) (s1a s2a : list nat)
    (tag_a : string) (wa wa' : World) (soup_a : Soup.Node)
    (data_a : Py.dict string) (net_b : Net) (s1b s2b : list nat)
    (tag_b : string) (wb wb' : World) (soup_b : Soup.Node)
    (data_b : Py.dict string) (table : Soup.Node) :
  (search net_a tag_a wa = (Ok (soup_a, data_a), wa') ->
   find_results_table soup_a = None ->
   fetch_all_citations net_a s1a s2a tag_a wa =
     (Ok (no_results_outcome tag_a
            match Soup.select_one_id "lblErrorTag" soup_a with
            | Some m => Soup.get_text_strip m
            | None => "No results table found."%string
            end), wa')) /\
  (search net_b tag_b wb = (Ok (soup_b, data_b), wb') ->
   find_results_table soup_b = Some table ->
   length (Soup.find_all "tr" table) <= 1 \/ parse_main_rows table = [] ->
   fetch_all_citations net_b s1b s2b tag_b wb =
     (Ok (empty_outcome tag_b
            match Soup.select_one_id "lbl_totaldue_vTag" soup_b with
            | Some el => Some (Soup.get_text_strip el)
            | None => None
            end), wb')) /\
  (forall msg due, no_results_outcome tag_a msg <> empty_outcome tag_b due).
Proof.
  repeat split.
  - intros Ha Na. unfold fetch_all_citations, bind. rewrite Ha, Na.
    reflexivity.
  - intros Hb Fb Rb.
    assert (E : parse_main_rows table = []).
    { destruct Rb as [L|E]; [now apply header_only_no_rows|exact E]. }
    unfold fetch_all_citations, bind. rewrite Hb, Fb, E. reflexivity.
  - intros msg due. unfold no_results_outcome, empty_outcome. congruence.
Qed.

Lemma outcomes_without_citations_witness :
  fetch_all_citations outcomes_net [] [] "ABC123" [] =
    (Ok (no_results_outcome "ABC123"
           match Soup.select_one_id "lblErrorTag" blank_error_page with
           | Some m => Soup.get_text_strip m
           | None => "No results table found."%string
           end), after_first_search) /\
  fetch_all_citations header_only_net [] [] "ABC123" [] =
    (Ok (empty_outcome "ABC123"
           match Soup.select_one_id "lbl_totaldue_vTag" header_only_page with
           | Some el => Some (Soup.get_text_strip el)
           | None => None
           end), snd (search header_only_net "ABC123" [])).
Proof.
  destruct (outcomes_without_citations outcomes_net [] [] "ABC123"
              [] after_first_search blank_error_page sample_form
              header_only_net [] [] "ABC123" []
              (snd (search header_only_net "ABC123" []))
              header_only_page sample_form
              (results_table default_headers []))
    as (Ha & Hb & _).
  split.
  - apply Ha; reflexivity.
  - apply Hb; [reflexivity|reflexivity|]. left. simpl. lia.
Defined.

(** C7 does not hold as stated: a header-only table next to the total
    label gives a total_due that is not null, and an error label that shows
    nothing gives an empty message. *)
Lemma outcomes_not_as_stated :
  fst (fetch_all_citations outcomes_net [] [] "ABC123" after_first_search) =
    Ok (empty_outcome "ABC123" (Some "$0.00"%string)) /\
  fst (fetch_all_citations outcomes_net [] [] "ABC123" []) =
    Ok (no_results_outcome "ABC123" "").
Proof. split; reflexivity. Qed.

(** ** Merging the details into the record *)

Lemma mem_set_same {V} (k : string) (v : V) (d : Py.dict V) :
  Py.mem k (Py.set k v d) = true.
Proof. unfold Py.mem. now rewrite get_set_eq. Qed.

Lemma mem_set_mono {V} (k k' : string) (v : V) (d : Py.dict V) :
  Py.mem k d = true -> Py.mem k (Py.set k' v d) = true.
Proof.
  destruct (String.eqb_spec k k') as [->|N].
  - intros _. apply mem_set_same.
  - unfold Py.mem. now rewrite get_set_neq.
Qed.

Lemma mem_update_mono {V} (k : string) (d other : Py.dict V) :
  Py.mem k d = true -> Py.mem k (Py.update d other) = true.
Proof.
  unfold Py.update. revert d.
  induction other as [|[k' v'] other IH]; intros d H; simpl; [exact H|].
  apply IH. now apply mem_set_mono.
Qed.

Lemma mem_update_other {V} (k : string) (d other : Py.dict V) :
  Py.mem k other = true -> Py.mem k (Py.update d other) = true.
Proof.
  unfold Py.update. revert d.
  induction other as [|[k' v'] other IH]; intros d H; [discriminate|].
  simpl. unfold Py.mem in H. simpl in H.
  destruct (String.eqb_spec k k') as [->|N].
  - apply (mem_update_mono k' (Py.set k' v' d) other), mem_set_same.
  - apply IH. exact H.
Qed.

Lemma get_update_origin {V} (k : string) (v : V) (d other : Py.dict V) :
  Py.get k (Py.update d other) = Some v ->
  Py.get k d = Some v \/ In (k, v) other.
Proof.
  unfold Py.update. revert d.
  induction other as [|[k' v'] other IH]; intros d H; simpl in *; [auto|].
  apply IH in H as [H|H]; [|auto].
  destruct (String.eqb_spec k k') as [->|N].
  - rewrite get_set_eq in H. injection H as ->. auto.
  - rewrite get_set_neq in H by assumption. auto.
Qed.

Lemma get_In {V} (k : string) (v : V) (d : Py.dict V) :
  Py.get k d = Some v -> In (k, v) d.
Proof.
  induction d as [|[k' v'] d IH]; simpl; [discriminate|].
  destruct (String.eqb_spec k k') as [->|N].
  - intros [= ->]. auto.
  - auto.
Qed.

Lemma mem_as_values (k : string) (d : Py.dict string) :
  Py.mem k (as_values d) = Py.mem k d.
Proof.
  unfold Py.mem, as_values. induction d as [|[k' v'] d IH]; simpl; auto.
  destruct (String.eqb k k'); auto.
Qed.

Lemma as_values_strings (k : string) (v : Value) (d : Py.dict string) :
  In (k, v) (as_values d) -> exists s, v = VStr s.
Proof.
  unfold as_values. intros H. apply in_map_iff in H as ([k' s] & E & _).
  injection E as _ <-. now exists s.
Qed.

Lemma clean_details_mono (k : string) (details acc : Py.dict string) :
  Py.mem k acc = true -> Py.mem k (fold_left clean_detail details acc) = true.
Proof.
  revert acc. induction details as [|[k' v'] details IH]; intros acc H;
    simpl; [exact H|].
  apply IH. destruct (Py.startswith "table_" k'); now apply mem_set_mono.
Qed.

Lemma clean_details_keeps (k v : string) (details acc : Py.dict string) :
  In (k, v) details ->
  Py.startswith "table_" k = false ->
  Py.mem k (fold_left clean_detail details acc) = true.
Proof.
  revert acc. induction details as [|[k' v'] details IH]; intros acc H T;
    simpl in *; [contradiction|].
  destruct H as [[= -> ->]|H].
  - rewrite T. apply clean_details_mono, mem_set_same.
  - now apply IH.
Qed.

Lemma worker_on_success (net : Net) (args : WorkerArgs) (w w' : World)
    (details : Py.dict string) :
  fetch_citation_details_optimized net (arg_citation_number args)
    (arg_base_form_data args) w = (Ok details, w') ->
  fetch_citation_details_worker net args w =
  (Ok match details with
      | [] => summary_only (arg_row args)
      | _ :: _ =>
          let citation_info :=
            Py.update (summary_only (arg_row args))
              (as_values (fold_left clean_detail details [])) in
          if negb (Py.mem "due_date" citation_info) then
            Py.set "due_date_estimated" (VBool false)
              (Py.set "due_date" (VStr "Not available") citation_info)
          else citation_info
      end, w').
Proof.
  intros H. unfold fetch_citation_details_worker, try_except, bind.
  rewrite H. unfold ret, summary_only.
  destruct (String.eqb (Status (arg_row args)) "OPEN"); reflexivity.
Qed.

Lemma summary_only_no_placeholder (row : SummaryRow) :
  Py.get "due_date" (summary_only row) = None /\
  ~ placeholder_added (summary_only row).
Proof. split; [reflexivity|]. unfold placeholder_added. discriminate. Qed.

(** C10.  On whatever network, when the detail fetch succeeds with an
    empty mapping the record is exactly the four summary fields,
    needs_payment and payment_required: no due_date and no placeholder.
    And whenever a record does carry the placeholder, its due_date is
    "Not available" and either the fetch failed or the mapping was
    non-empty and had no due_date. *)
Theorem placeholder_only_with_details (net : Net) (args : WorkerArgs)
    (w w' : World) (net2 : Net) (args2 : WorkerArgs) (w2 w2' : World)
    (rec : CitationInfo) :
  (fetch_citation_details_optimized net (arg_citation_number args)
     (arg_base_form_data args) w = (Ok [], w') ->
   fetch_citation_details_worker net args w =
     (Ok (summary_only (arg_row args)), w') /\
   Py.keys (summary_only (arg_row args)) =
     ["Citation"; "Date Issued"; "Status"; "Amount Due"; "needs_payment";
      "payment_required"]%string /\
   Py.get "due_date" (summary_only (arg_row args)) = None /\
   ~ placeholder_added (summary_only (arg_row args))) /\
  (fetch_citation_details_worker net2 args2 w2 = (Ok rec, w2') ->
   placeholder_added rec ->
   Py.get "due_date" rec = Some (VStr "Not available") /\
   ((exists e,
       fst (fetch_citation_details_optimized net2 (arg_citation_number args2)
              (arg_base_form_data args2) w2) = Raise e)
    \/ (exists details,
          fst (fetch_citation_details_optimized net2
                 (arg_citation_number args2) (arg_base_form_data args2) w2)
            = Ok details /\
          details <> [] /\ Py.get "due_date" details = None))).
Proof.
  split.
  - intros He.
    split; [exact (worker_on_success net args w w' [] He)|].
    split; [reflexivity|]. apply summary_only_no_placeholder.
  - intros Hw Hp.
    destruct (fetch_citation_details_optimized net2
                (arg_citation_number args2) (arg_base_form_data args2) w2)
      as [[details|e] w3] eqn:F.
    + rewrite (worker_on_success net2 args2 w2 w3 details F) in Hw.
      injection Hw as <- _. cbn [fst].
      destruct details as [|kv d].
      { exfalso. now apply (summary_only_no_placeholder (arg_row args2)). }
      set (ci := Py.update (summary_only (arg_row args2))
                   (as_values (fold_left clean_detail (kv :: d) []))) in *.
      cbv zeta in Hp |- *.
      destruct (Py.mem "due_date" ci) eqn:M; cbn [negb] in Hp |- *.
      * exfalso. unfold placeholder_added in Hp. subst ci.
        apply get_update_origin in Hp as [Hp|Hp].
        -- now apply (summary_only_no_placeholder (arg_row args2)).
        -- apply as_values_strings in Hp as (s & Hs). discriminate.
      * split.
        -- rewrite get_set_neq by discriminate. apply get_set_eq.
        -- right. exists (kv :: d). split; [reflexivity|].
           split; [discriminate|].
           destruct (Py.get "due_date" (kv :: d)) as [v|] eqn:G;
             [|reflexivity].
           exfalso. apply get_In in G.
           assert (T : Py.mem "due_date" ci = true).
           { subst ci. apply mem_update_other. rewrite mem_as_values.
             now apply (clean_details_keeps "due_date" v). }
           congruence.
    + destruct (worker_on_failure net2 args2 w2 w3 e F)
        as (rec' & E & C & _).
      rewrite E in Hw. injection Hw as -> _.
      split; [apply C|]. left. exists e. reflexivity.
Qed.

Lemma placeholder_only_with_details_witness :
  (fetch_citation_details_worker no_detail_net sample_args [] =
     (Ok (summary_only (arg_row sample_args)),
      snd (fetch_citation_details_worker no_detail_net sample_args [])) /\
   Py.keys (summary_only (arg_row sample_args)) =
     ["Citation"; "Date Issued"; "Status"; "Amount Due"; "needs_payment";
      "payment_required"]%string /\
   Py.get "due_date" (summary_only (arg_row sample_args)) = None /\
   ~ placeholder_added (summary_only (arg_row sample_args))) /\
  (Py.get "due_date"
     (Py.set "due_date_estimated" (VBool false)
        (Py.set "due_date" (VStr "Not available")
           (Py.update (summary_only sample_row)
              [("citation_number", VStr "B200");
               ("violation_type", VStr "EXPIRED METER")]))) =
     Some (VStr "Not available") /\
   ((exists e,
       fst (fetch_citation_details_optimized mixed_net
              (arg_citation_number sample_args)
              (arg_base_form_data sample_args) one_sent) = Raise e)
    \/ (exists details,
          fst (fetch_citation_details_optimized mixed_net
                 (arg_citation_number sample_args)
                 (arg_base_form_data sample_args) one_sent)
            = Ok details /\
          details <> [] /\ Py.get "due_date" details = None))).
Proof.
  destruct (placeholder_only_with_details no_detail_net sample_args []
              (snd (fetch_citation_details_worker no_detail_net sample_args
                      []))
              mixed_net sample_args one_sent
              (snd (fetch_citation_details_worker mixed_net sample_args
                      one_sent))
              (Py.set "due_date_estimated" (VBool false)
                 (Py.set "due_date" (VStr "Not available")
                    (Py.update (summary_only sample_row)
                       [("citation_number", VStr "B200");
                        ("violation_type", VStr "EXPIRED METER")]))))
    as (Ha & Hb).
  split.
  - apply Ha. reflexivity.
  - apply Hb; reflexivity.
Defined.

(** ** Known fields, fallback fields and the derived fields *)

Lemma table_prefix (x : string) :
  Py.startswith "table_" ("table_" ++ x) = true.
Proof. unfold Py.startswith. simpl. now destruct x. Qed.

Lemma fallback_row_keeps (k : string) (details : Py.dict string)
    (row : Soup.Node) :
  Py.startswith "table_" k = false ->
  Py.get k (parse_fallback_row details row) = Py.get k details.
Proof.
  intros T. unfold parse_fallback_row.
  destruct (Soup.find_all_in ["td"; "th"]%string row) as [|c0 [|c1 cs]];
    try reflexivity.
  destruct (negb (String.eqb (Soup.get_text_strip c0) "") &&
            negb (String.eqb (Soup.get_text_strip c1) "")); [|reflexivity].
  apply get_set_neq. intros ->. rewrite table_prefix in T. discriminate.
Qed.

Lemma fallback_table_keeps (k : string) (details : Py.dict string)
    (table : Soup.Node) :
  Py.startswith "table_" k = false ->
  Py.get k (parse_fallback_table details table) = Py.get k details.
Proof.
  intros T. unfold parse_fallback_table.
  revert details.
  induction (Soup.find_all "tr" table) as [|row rows IH]; intros details;
    simpl; [reflexivity|].
  rewrite IH. now apply fallback_row_keeps.
Qed.

(** Inside [parse_citation_details] the fallback pass leaves every field
    found by a known identifier as it was. *)
Lemma fallback_keeps_known_fields (soup : Soup.Node) (c field : string) :
  In field (map snd id_mappings) ->
  Py.get field (parse_citation_details soup c) =
  Py.get field (fold_left (parse_known soup) id_mappings []).
Proof.
  intros Hin.
  assert (T : Py.startswith "table_" field = false).
  { simpl in Hin.
    repeat (destruct Hin as [<-|Hin]; [reflexivity|]). contradiction. }
  unfold parse_citation_details.
  generalize (fold_left (parse_known soup) id_mappings []).
  induction (Soup.find_all_class "table" "table table-bordered mb-0" soup)
    as [|t ts IH]; intros d; simpl; [reflexivity|].
  rewrite IH. now apply fallback_table_keeps.
Qed.

Lemma get_update_absent {V} (k : string) (d other : Py.dict V) :
  Py.mem k other = false -> Py.get k (Py.update d other) = Py.get k d.
Proof.
  unfold Py.update. revert d.
  induction other as [|[k' v'] other IH]; intros d H; simpl; [reflexivity|].
  unfold Py.mem in H. simpl in H.
  destruct (String.eqb_spec k k') as [->|N]; [discriminate|].
  rewrite IH by exact H. now apply get_set_neq.
Qed.

(** The derived fields are as C5 states them whenever the fetch fails, and
    whenever it succeeds with details that, once cleaned, have no key named
    like a derived field. *)
Lemma payment_fields_without_collision (net : Net) (args : WorkerArgs)
    (w w' : World) (rec : CitationInfo) :
  fetch_citation_details_worker net args w = (Ok rec, w') ->
  (forall details,
     fst (fetch_citation_details_optimized net (arg_citation_number args)
            (arg_base_form_data args) w) = Ok details ->
     Py.mem "needs_payment" (fold_left clean_detail details []) = false /\
     Py.mem "payment_required" (fold_left clean_detail details []) = false) ->
  Py.get "needs_payment" rec =
    Some (VBool (String.eqb (Status (arg_row args)) "OPEN")) /\
  Py.get "payment_required" rec =
    Some (VStr (if String.eqb (Status (arg_row args)) "OPEN"
                then Amount_Due (arg_row args) else "$0.00"%string)).
Proof.
  intros Hw Hc.
  destruct (fetch_citation_details_optimized net (arg_citation_number args)
              (arg_base_form_data args) w) as [[details|e] w1] eqn:F.
  - rewrite (worker_on_success net args w w1 details F) in Hw.
    injection Hw as <- _.
    destruct (Hc details eq_refl) as [N P].
    destruct details as [|kv d]; [split; reflexivity|].
    cbv zeta.
    assert (G1 : Py.get "needs_payment"
                   (Py.update (summary_only (arg_row args))
                      (as_values (fold_left clean_detail (kv :: d) []))) =
                 Some (VBool (String.eqb (Status (arg_row args)) "OPEN"))).
    { rewrite get_update_absent by (now rewrite mem_as_values). reflexivity. }
    assert (G2 : Py.get "payment_required"
                   (Py.update (summary_only (arg_row args))
                      (as_values (fold_left clean_detail (kv :: d) []))) =
                 Some (VStr (if String.eqb (Status (arg_row args)) "OPEN"
                             then Amount_Due (arg_row args)
                             else "$0.00"%string))).
    { rewrite get_update_absent by (now rewrite mem_as_values). reflexivity. }
    destruct (negb (Py.mem "due_date" _)); [|auto].
    rewrite !get_set_neq by discriminate. auto.
  - destruct (worker_on_failure net args w w1 e F) as (rec' & E & C & _).
    rewrite E in Hw. injection Hw as -> _. split; [apply C|].
    unfold fetch_citation_details_worker, try_except, bind in E.
    rewrite F in E. injection E as <-. reflexivity.
Qed.

(** C5 at the failing input.  The row says PAID, so needs_payment should be
    false and payment_required "$0.00"; the detail page has table rows
    labelled Needs Payment and Payment Required, and their texts replace
    the derived fields. *)
Theorem payment_fields_overwritten :
  Status paid_row = "PAID"%string /\
  exists rec,
    fst (fetch_citation_details_worker colliding_net paid_args []) = Ok rec /\
    Py.get "needs_payment" rec = Some (VStr "Yes") /\
    needs_payment rec = true /\
    Py.get "payment_required" rec = Some (VStr "$99.00").
Proof.
  split; [reflexivity|]. eexists. split; [reflexivity|].
  repeat split.
Qed.

(** C8 at the failing input.  The page shows PAID in the element with the
    known identifier lb_Status and DISPUTED in a table row labelled Status.
    The parsed mapping keeps both apart, but the record ends up with the
    table's text under the known field's name. *)
Theorem known_field_overwritten :
  Py.get "status" (parse_citation_details colliding_page "A100") =
    Some "PAID"%string /\
  Py.get "table_status" (parse_citation_details colliding_page "A100") =
    Some "DISPUTED"%string /\
  exists rec,
    fst (fetch_citation_details_worker colliding_net paid_args []) = Ok rec /\
    Py.get "status" rec = Some (VStr "DISPUTED").
Proof.
  split; [reflexivity|]. split; [reflexivity|].
  eexists. split; reflexivity.
Qed.

(** * Further properties of the code *)

(** ** The postback executor, for any number of attempts *)

Lemma postback_loop_trace (net : Net) (soup : Soup.Node) (t a : string)
    (m : Z) (todo attempt : nat) (w : World) :
  let rq := postback_request soup t a in
  exists j,
    j <= todo /\
    snd (postback_loop net soup t a m todo attempt w) =
      w ++ (if attempt =? 0 then attempts_trace rq j else retries_trace rq j) /\
    (forall page,
       fst (postback_loop net soup t a m todo attempt w) = Ok page ->
       1 <= j /\ answer net (sent w + j - 1) rq = Ok page).
Proof.
  intros rq. revert attempt w.
  induction todo as [|todo IH]; intros attempt w.
  - exists 0. split; [lia|]. split.
    + simpl. destruct (attempt =? 0); now rewrite app_nil_r.
    + simpl. discriminate.
  - cbn [postback_loop]. unfold try_except.
    assert (A : exists w1,
              postback_attempt net soup t a attempt w =
                (answer net (sent w) rq, w1) /\
              w1 = w ++ (if attempt =? 0 then attempts_trace rq 1
                         else retries_trace rq 1) /\
              sent w1 = sent w + 1).
    { destruct attempt as [|k].
      - rewrite postback_attempt_first. eexists. split; [reflexivity|].
        split; [reflexivity|]. now rewrite sent_app.
      - rewrite postback_attempt_again. eexists. split; [reflexivity|].
        split; [reflexivity|]. now rewrite sent_app. }
    destruct A as (w1 & -> & Hw1 & Hs1).
    assert (One : exists j,
              j <= S todo /\
              w1 = w ++ (if attempt =? 0 then attempts_trace rq j
                         else retries_trace rq j) /\
              (forall page, answer net (sent w) rq = Ok page ->
                 1 <= j /\ answer net (sent w + j - 1) rq = Ok page)).
    { exists 1. split; [lia|]. split; [exact Hw1|].
      intros page H. split; [lia|].
      now replace (sent w + 1 - 1) with (sent w) by lia. }
    assert (More : exists j,
              j <= S todo /\
              snd (postback_loop net soup t a m todo (S attempt) w1) =
                w ++ (if attempt =? 0 then attempts_trace rq j
                      else retries_trace rq j) /\
              (forall page,
                 fst (postback_loop net soup t a m todo (S attempt) w1) =
                   Ok page ->
                 1 <= j /\ answer net (sent w + j - 1) rq = Ok page)).
    { destruct (IH (S attempt) w1) as (j & Hj & Ht & Hp).
      exists (S j). split; [lia|]. split.
      - rewrite Ht, Hw1, <- app_assoc. f_equal.
        cbn [Nat.eqb]. destruct (attempt =? 0); reflexivity.
      - intros page H. destruct (Hp page H) as [Hj1 Ha]. split; [lia|].
        rewrite Hs1 in Ha.
        now replace (sent w + S j - 1) with (sent w + 1 + j - 1) by lia. }
    destruct (answer net (sent w) rq) as [page|e] eqn:An.
    + destruct One as (j & Hj & Ht & Hp). exists j. cbn [fst snd].
      split; [exact Hj|]. split; [exact Ht|].
      intros page' [= <-]. now apply Hp.
    + assert (Stop : exists j,
                j <= S todo /\
                snd (@raise Soup.Node e w1) =
                  w ++ (if attempt =? 0 then attempts_trace rq j
                        else retries_trace rq j) /\
                (forall page, fst (@raise Soup.Node e w1) = Ok page ->
                   1 <= j /\ answer net (sent w + j - 1) rq = Ok page)).
      { destruct One as (j & Hj & Ht & _). exists j.
        split; [exact Hj|]. split; [exact Ht|]. discriminate. }
      destruct (is_Timeout e); [|destruct (is_RequestException e)];
        try destruct (Z.of_nat attempt =? m - 1)%Z;
        first [exact Stop | exact More].
Qed.

(** X1.  Whatever the number [max_retries] of attempts asked for, the
    postback executor sends the same form at most that many times (never,
    when the number is zero or negative), with a pause of 500 ms before
    every attempt but the first and nothing else in between; and a page it
    returns is the page of its last request, whose answer passed the status
    check. *)
Theorem postback_bounded (net : Net) (soup : Soup.Node)
    (event_target event_argument : string) (max_retries : Z) (w : World) :
  let rq := postback_request soup event_target event_argument in
  exists k,
    k <= Z.to_nat max_retries /\
    snd (postback net soup event_target event_argument max_retries w) =
      w ++ attempts_trace rq k /\
    (forall page,
       fst (postback net soup event_target event_argument max_retries w) =
         Ok page ->
       1 <= k /\ answer net (sent w + k - 1) rq = Ok page).
Proof.
  intros rq. unfold postback.
  destruct (postback_loop_trace net soup event_target event_argument
              max_retries (Z.to_nat max_retries) 0 w) as (j & Hj & Ht & Hp).
  exists j. auto.
Qed.

(** ** The form of the tag search *)

Lemma get_set_if_present_same (k v : string) (d : Py.dict string) :
  Py.get k (set_if_present k v d) =
  option_map (fun _ => v) (Py.get k d).
Proof.
  unfold set_if_present, Py.mem.
  destruct (Py.get k d) eqn:G; simpl; [apply get_set_eq|exact G].
Qed.

Lemma get_set_if_present_other (k k' v : string) (d : Py.dict string) :
  k <> k' -> Py.get k (set_if_present k' v d) = Py.get k d.
Proof.
  intros N. unfold set_if_present.
  destruct (Py.mem k' d); [now apply get_set_neq|reflexivity].
Qed.

Lemma get_hidden_overlay (soup : Soup.Node) (d : Py.dict string)
    (i : string) :
  In i hidden_ids ->
  Py.get i (Py.update d (extract_hidden_fields soup)) = Some (val soup i).
Proof.
  intros Hi. unfold Py.update, extract_hidden_fields. cbn [fold_left fst snd].
  simpl in Hi. destruct Hi as [<-|[<-|[<-|[]]]].
  - rewrite !get_set_neq by discriminate. apply get_set_eq.
  - rewrite get_set_neq by discriminate. apply get_set_eq.
  - apply get_set_eq.
Qed.

Lemma get_other_overlay (soup : Soup.Node) (d : Py.dict string)
    (k : string) :
  ~ In k hidden_ids ->
  Py.get k (Py.update d (extract_hidden_fields soup)) = Py.get k d.
Proof.
  intros N. unfold Py.update, extract_hidden_fields. cbn [fold_left fst snd].
  simpl in N. rewrite !get_set_neq; [reflexivity| | |]; intros ->; tauto.
Qed.

(** What a successful [search] has sent and returns. *)
Lemma search_done (net : Net) (tag : string) (w w1 : World)
    (soup : Soup.Node) (data : Py.dict string) :
  search net tag w = (Ok (soup, data), w1) ->
  exists r,
    net (sent w) get_request = Responds r /\
    w1 = w ++ [Sent get_request; Sent (mkRequest POST data)] /\
    Py.get "__EVENTTARGET" data = Some btnSubmit_TagSearch /\
    Py.get "__EVENTARGUMENT" data = Some ""%string /\
    Py.get txtTag data = Some (Py.upper (Py.strip tag)) /\
    (forall i, In i hidden_ids -> Py.get i data = Some (val (body r) i)) /\
    Py.get DropDownState data <> Some ""%string /\
    (Py.get hfTab data = None \/ Py.get hfTab data = Some "tagplate"%string) /\
    (Py.get txtcitn data = None \/ Py.get txtcitn data = Some ""%string).
Proof.
  unfold search. unfold bind at 1. unfold session_get, send at 1.
  fold get_request.
  destruct (net (sent w) get_request) as [r|e] eqn:G; [|discriminate].
  unfold bind at 1. rewrite raise_for_status_pure.
  destruct (fst (raise_for_status r [])) as [[]|e]; [|discriminate].
  set (d0 := Py.update (collect_form_fields (body r))
               (extract_hidden_fields (body r))).
  set (d1 := Py.set txtTag (Py.upper (Py.strip tag))
               (Py.set "__EVENTARGUMENT" ""
                  (Py.set "__EVENTTARGET" btnSubmit_TagSearch d0))).
  set (d2 := match Py.get DropDownState d1 with
             | Some ""%string => Py.set DropDownState "FL" d1
             | _ => d1
             end).
  set (d3 := set_if_present txtcitn "" (set_if_present hfTab "tagplate" d2)).
  assert (K2 : forall k, k <> DropDownState -> Py.get k d2 = Py.get k d1).
  { intros k N. subst d2. destruct (Py.get DropDownState d1) as [[|c s]|];
      try reflexivity. now apply get_set_neq. }
  assert (K3 : forall k, k <> hfTab -> k <> txtcitn ->
                         Py.get k d3 = Py.get k d2).
  { intros k N1 N2. subst d3.
    now rewrite !get_set_if_present_other by assumption. }
  unfold bind at 1. unfold session_post, send.
  destruct (net (sent (w ++ [Sent get_request])) (mkRequest POST d3))
    as [r2|e]; [|discriminate].
  unfold bind at 1. rewrite raise_for_status_pure.
  destruct (fst (raise_for_status r2 [])) as [[]|e]; [|discriminate].
  unfold ret. intros [= <- <- <-].
  exists r. split; [reflexivity|]. split; [now rewrite <- app_assoc|].
  repeat split.
  - rewrite K3, K2 by discriminate. subst d1.
    rewrite !get_set_neq by discriminate. apply get_set_eq.
  - rewrite K3, K2 by discriminate. subst d1.
    rewrite get_set_neq by discriminate. apply get_set_eq.
  - rewrite K3, K2 by discriminate. subst d1. apply get_set_eq.
  - intros i Hi. rewrite K3, K2.
    + subst d1. rewrite !get_set_neq.
      * subst d0. now apply get_hidden_overlay.
      * intros ->. simpl in Hi. intuition discriminate.
      * intros ->. simpl in Hi. intuition discriminate.
      * intros ->. simpl in Hi. intuition discriminate.
    + intros ->. simpl in Hi. intuition discriminate.
    + intros ->. simpl in Hi. intuition discriminate.
    + intros ->. simpl in Hi. intuition discriminate.
  - rewrite K3 by discriminate. subst d2.
    destruct (Py.get DropDownState d1) as [[|c s]|] eqn:D.
    + rewrite get_set_eq. discriminate.
    + rewrite D. discriminate.
    + rewrite D. discriminate.
  - subst d3. rewrite get_set_if_present_other by discriminate.
    rewrite get_set_if_present_same.
    destruct (Py.get hfTab d2); simpl; auto.
  - subst d3. rewrite get_set_if_present_same.
    destruct (Py.get txtcitn _); simpl; auto.
Qed.

(** X2.  The form a successful tag search has posted, which is also the
    form it hands to the detail fetches, names the tag-search button as
    event target with an empty argument, carries the tag stripped and in
    upper case, the three hidden-state values of the landing page it has
    just fetched, never an empty state selector, the tab selector set to
    tagplate and the citation field blank when the page has them; the
    search has sent the GET and this one POST and nothing else. *)
Theorem search_form_replayed (net : Net) (tag : string) (w w1 : World)
    (soup : Soup.Node) (data : Py.dict string) :
  search net tag w = (Ok (soup, data), w1) ->
  exists r,
    net (sent w) get_request = Responds r /\
    w1 = w ++ [Sent get_request; Sent (mkRequest POST data)] /\
    Py.get "__EVENTTARGET" data = Some btnSubmit_TagSearch /\
    Py.get "__EVENTARGUMENT" data = Some ""%string /\
    Py.get txtTag data = Some (Py.upper (Py.strip tag)) /\
    Py.get "__VIEWSTATE" data = Some (val (body r) "__VIEWSTATE") /\
    Py.get "__EVENTVALIDATION" data =
      Some (val (body r) "__EVENTVALIDATION") /\
    Py.get "__VIEWSTATEGENERATOR" data =
      Some (val (body r) "__VIEWSTATEGENERATOR") /\
    Py.get DropDownState data <> Some ""%string /\
    (Py.get hfTab data = None \/ Py.get hfTab data = Some "tagplate"%string) /\
    (Py.get txtcitn data = None \/ Py.get txtcitn data = Some ""%string).
Proof.
  intros H. destruct (search_done net tag w w1 soup data H)
    as (r & G & W & T & A & Tag & Hid & D & Tab & Cit).
  exists r. repeat split; try assumption; apply Hid; simpl; auto.
Qed.

Lemma search_form_replayed_witness :
  exists r,
    sample_net (sent []) get_request = Responds r /\
    sample_world =
      [] ++ [Sent get_request; Sent (mkRequest POST sample_form)] /\
    Py.get "__EVENTTARGET" sample_form = Some btnSubmit_TagSearch /\
    Py.get "__EVENTARGUMENT" sample_form = Some ""%string /\
    Py.get txtTag sample_form = Some (Py.upper (Py.strip " abc123 ")) /\
    Py.get "__VIEWSTATE" sample_form = Some (val (body r) "__VIEWSTATE") /\
    Py.get "__EVENTVALIDATION" sample_form =
      Some (val (body r) "__EVENTVALIDATION") /\
    Py.get "__VIEWSTATEGENERATOR" sample_form =
      Some (val (body r) "__VIEWSTATEGENERATOR") /\
    Py.get DropDownState sample_form <> Some ""%string /\
    (Py.get hfTab sample_form = None \/
     Py.get hfTab sample_form = Some "tagplate"%string) /\
    (Py.get txtcitn sample_form = None \/
     Py.get txtcitn sample_form = Some ""%string).
Proof.
  apply (search_form_replayed sample_net " abc123 " [] sample_world
           results_page sample_form).
  reflexivity.
Defined.

(** ** The form and the requests of a detail fetch *)

Lemma fetch_with_base_world (net : Net) (cit : string)
    (kv : string * string) (base : Py.dict string) (w : World) :
  snd (fetch_citation_details_optimized net cit (Some (kv :: base)) w) =
  w ++ [Sent (mkRequest POST
          (set_if_present DropDownState "FL"
             (set_if_present hfTab "citation"
                (Py.set txtTag ""
                   (Py.set txtcitn cit
                      (Py.set "__EVENTARGUMENT" ""
                         (Py.set "__EVENTTARGET" btnSubmit_CitSearch
                            (kv :: base))))))))].
Proof.
  unfold fetch_citation_details_optimized. cbn [nonempty_form].
  unfold bind at 1. unfold ret at 1.
  unfold bind at 1. unfold session_post, send.
  destruct (net (sent w) _) as [r|e]; [|reflexivity].
  unfold bind at 1. rewrite raise_for_status_pure.
  destruct (fst (raise_for_status r [])) as [[]|e]; reflexivity.
Qed.

(** X3.  Given a non-empty form, a detail fetch sends exactly one request,
    whatever comes of it: a POST of that form with the citation-search
    button as event target, an empty argument, the citation id in the
    citation field, the tag field blank, the tab selector set to citation
    and the state selector to FL when the form has them, and every other
    field, the hidden-state values among them, as it was given. *)
Theorem detail_form_replayed (net : Net) (cit : string)
    (kv : string * string) (base : Py.dict string) (w : World) :
  exists data,
    snd (fetch_citation_details_optimized net cit (Some (kv :: base)) w) =
      w ++ [Sent (mkRequest POST data)] /\
    Py.get "__EVENTTARGET" data = Some btnSubmit_CitSearch /\
    Py.get "__EVENTARGUMENT" data = Some ""%string /\
    Py.get txtcitn data = Some cit /\
    Py.get txtTag data = Some ""%string /\
    Py.get hfTab data =
      option_map (fun _ => "citation"%string) (Py.get hfTab (kv :: base)) /\
    Py.get DropDownState data =
      option_map (fun _ => "FL"%string) (Py.get DropDownState (kv :: base)) /\
    (forall k, In k detail_fields \/ Py.get k data = Py.get k (kv :: base)).
Proof.
  eexists. split; [apply fetch_with_base_world|].
  repeat split.
  - rewrite !get_set_if_present_other by discriminate.
    rewrite !get_set_neq by discriminate. apply get_set_eq.
  - rewrite !get_set_if_present_other by discriminate.
    rewrite !get_set_neq by discriminate. apply get_set_eq.
  - rewrite !get_set_if_present_other by discriminate.
    rewrite get_set_neq by discriminate. apply get_set_eq.
  - rewrite !get_set_if_present_other by discriminate. apply get_set_eq.
  - rewrite get_set_if_present_other by discriminate.
    rewrite get_set_if_present_same.
    now rewrite !get_set_neq by discriminate.
  - rewrite get_set_if_present_same.
    rewrite get_set_if_present_other by discriminate.
    now rewrite !get_set_neq by discriminate.
  - intros k.
    destruct (in_dec string_dec k detail_fields) as [I|N]; [now left|right].
    assert (forall k', In k' detail_fields -> k <> k')
      by (intros k' I ->; contradiction).
    rewrite !get_set_if_present_other by (apply H; simpl; auto 7).
    rewrite !get_set_neq by (apply H; simpl; auto 7).
    reflexivity.
Qed.

Lemma pauses_app (w w' : World) : pauses (w ++ w') = pauses w ++ pauses w'.
Proof. unfold pauses. apply flat_map_app. Qed.

Lemma worker_world (net : Net) (args : WorkerArgs) (w : World) :
  snd (fetch_citation_details_worker net args w) =
  snd (fetch_citation_details_optimized net (arg_citation_number args)
         (arg_base_form_data args) w).
Proof.
  unfold fetch_citation_details_worker, try_except, bind.
  destruct (fetch_citation_details_optimized net _ _ w) as [[d|e] w1];
    reflexivity.
Qed.

Lemma run_tasks_requests (net : Net) (tasks : list WorkerArgs) (w : World) :
  Forall (fun args => exists kv base,
            arg_base_form_data args = Some (kv :: base)) tasks ->
  sent (snd (run_tasks net tasks w)) = sent w + length tasks /\
  pauses (snd (run_tasks net tasks w)) = pauses w.
Proof.
  intros F. revert w. induction F as [|a tasks (kv & base & B) F IH];
    intros w; simpl; [split; [lia|reflexivity]|].
  pose proof (worker_world net a w) as W.
  destruct (fetch_citation_details_worker net a w) as [res w1].
  cbn [snd] in W. rewrite B, fetch_with_base_world in W.
  destruct (IH w1) as [S P].
  destruct (run_tasks net tasks w1) as [futs w2]. cbn [snd] in *.
  rewrite S, P, W, sent_app, pauses_app.
  change (sent [Sent ?rq]) with 1. change (pauses [Sent ?rq]) with (@nil Z).
  cbn [length]. split; [lia|apply app_nil_r].
Qed.

Lemma search_data_nonempty (net : Net) (tag : string) (w w1 : World)
    (soup : Soup.Node) (data : Py.dict string) :
  search net tag w = (Ok (soup, data), w1) ->
  exists kv base, data = kv :: base.
Proof.
  intros H. destruct (search_done net tag w w1 soup data H)
    as (r & _ & _ & T & _).
  destruct data as [|kv base]; [discriminate|]. now exists kv, base.
Qed.

(** X4.  When the search has found the results table, the whole pipeline
    sends two requests and then one more for each row of the table, one
    POST per citation and no second fetch of the landing page, and it
    never pauses. *)
Theorem one_request_per_citation (net : Net) (s1 s2 : list nat)
    (tag : string) (w w1 : World) (soup : Soup.Node) (data : Py.dict string)
    (table : Soup.Node) :
  search net tag w = (Ok (soup, data), w1) ->
  find_results_table soup = Some table ->
  sent (snd (fetch_all_citations net s1 s2 tag w)) =
    sent w + 2 + length (parse_main_rows table) /\
  pauses (snd (fetch_all_citations net s1 s2 tag w)) = pauses w.
Proof.
  intros Hs Hf.
  destruct (search_done net tag w w1 soup data Hs) as (r & _ & W & _).
  destruct (search_data_nonempty net tag w w1 soup data Hs)
    as (kv & base & D).
  assert (S1 : sent w1 = sent w + 2) by (rewrite W, sent_app; reflexivity).
  assert (P1 : pauses w1 = pauses w)
    by (rewrite W, pauses_app; simpl; now rewrite app_nil_r).
  unfold fetch_all_citations, bind. rewrite Hs, Hf.
  destruct (parse_main_rows table) as [|row rows] eqn:R.
  - unfold ret. cbn [snd length]. split; [lia|exact P1].
  - unfold dispatch.
    set (tasks := pick s1 (map (fun row0 => mkArgs (Citation row0) (Some data)
                                             row0) (row :: rows))).
    assert (F : Forall (fun args => exists kv base,
                          arg_base_form_data args = Some (kv :: base)) tasks).
    { apply Forall_forall. intros a Ha.
      apply (Permutation_in _ (pick_perm s1 _)) in Ha.
      apply in_map_iff in Ha as (row0 & <- & _). exists kv, base.
      now rewrite D. }
    destruct (run_tasks_requests net tasks w1 F) as [S P].
    assert (L : length tasks = length (row :: rows)).
    { unfold tasks. rewrite (Permutation_length (pick_perm s1 _)).
      apply length_map. }
    destruct (run_tasks net tasks w1) as [futs w2]. cbn [snd] in *.
    rewrite S, P, L, S1. split; [lia|exact P1].
Qed.

Lemma one_request_per_citation_witness :
  sent (snd (fetch_all_citations sample_net [1] [] " abc123 " [])) =
    sent [] + 2 + length (parse_main_rows sample_table) /\
  pauses (snd (fetch_all_citations sample_net [1] [] " abc123 " [])) =
    pauses [].
Proof.
  apply (one_request_per_citation sample_net [1] [] " abc123 " []
           sample_world results_page sample_form sample_table).
  - reflexivity.
  - reflexivity.
Defined.

(** ** Rows of the results table *)

Lemma flat_map_short {A B} (f : A -> list B) (l : list A) :
  (forall x, length (f x) <= 1) -> length (flat_map f l) <= length l.
Proof.
  intros H. induction l as [|a l IH]; simpl; [lia|].
  rewrite length_app. specialize (H a). lia.
Qed.

Lemma parse_main_row_has_id (ip ic id_ is_ ia : nat) (tr0 : Soup.Node)
    (row : SummaryRow) :
  parse_main_row ip ic id_ is_ ia tr0 = Some row ->
  Citation row <> ""%string /\
  Nat.max ia (Nat.max is_ (Nat.max id_ (Nat.max ic ip))) <
    length (Soup.find_all "td" tr0).
Proof.
  unfold parse_main_row.
  destruct (Nat.ltb_spec (length (Soup.find_all "td" tr0))
              (Nat.max ia (Nat.max is_ (Nat.max id_ (Nat.max ic ip))) + 1));
    [discriminate|].
  destruct (String.eqb_spec
              (Soup.get_text_strip (nth ic (Soup.find_all "td" tr0)
                                      (Soup.Text ""))) "");
    [discriminate|].
  intros [= <-]. cbn [Citation]. split; [assumption|lia].
Qed.

(** X5.  Every row the results parser returns has a citation id that is
    not empty, and the parser returns at most one row for each table row
    after the first: rows that are too short or have no citation id are
    left out, and a table of fewer than two rows gives none. *)
Theorem parsed_rows_have_ids (table : Soup.Node) :
  Forall (fun row => Citation row <> ""%string) (parse_main_rows table) /\
  length (parse_main_rows table) <= length (Soup.find_all "tr" table) - 1.
Proof.
  unfold parse_main_rows.
  destruct (Soup.find_all "tr" table) as [|tr0 [|tr1 trs]];
    [split; [constructor|simpl; lia] | split; [constructor|simpl; lia] |].
  cbv zeta. split.
  - apply Forall_forall. intros row Hrow.
    apply in_flat_map in Hrow as (t & _ & Ht).
    destruct (parse_main_row _ _ _ _ _ t) as [row'|] eqn:E; simpl in Ht;
      [|contradiction].
    destruct Ht as [<-|[]]. now apply parse_main_row_has_id in E.
  - etransitivity; [apply flat_map_short|simpl; lia].
    intros t. destruct (parse_main_row _ _ _ _ _ t); simpl; lia.
Qed.

(** ** The expand link *)

Lemma split_before_sep (sep : ascii) (x rest : string) :
  occurs sep x = false ->
  Py.split sep (x ++ String sep rest) = x :: Py.split sep rest.
Proof.
  induction x as [|c x IH]; simpl; intros H.
  - now rewrite Ascii.eqb_refl.
  - apply orb_false_iff in H as [H1 H2]. rewrite H1, (IH H2). reflexivity.
Qed.

(** X6.  From a first-column cell whose link is the portal's postback call
    for a target, the results parser reads back that target, whatever the
    argument of the call and the content of the link, provided the target
    holds no quote character. *)
Theorem expand_target_round_trip (target arg : string)
    (kids : list Soup.Node) :
  occurs "'" target = false ->
  expand_target_of (expand_cell target arg kids) = Some target.
Proof.
  intros H. unfold expand_target_of, expand_cell, cell.
  change (Soup.find_with_attr "a" "href"
            (Soup.Elem "td" []
               [Soup.Elem "a" [("href"%string, postback_href target arg)]
                  kids]))
    with (Some (Soup.Elem "a" [("href"%string, postback_href target arg)]
                  kids)).
  cbv beta iota zeta.
  change (Soup.attr_or "href" ""
            (Soup.Elem "a" [("href"%string, postback_href target arg)] kids))
    with (postback_href target arg).
  assert (C : Py.contains "__doPostBack" (postback_href target arg) = true)
    by (vm_compute; reflexivity).
  rewrite C. unfold postback_href.
  change ("javascript:__doPostBack('" ++ target ++ "','" ++ arg ++ "')")%string
    with ("javascript:__doPostBack(" ++
          String "'" (target ++ String "'" ("," ++ "'" ++ arg ++ "')")))%string.
  rewrite split_before_sep by reflexivity.
  rewrite split_before_sep by exact H.
  reflexivity.
Qed.

Lemma expand_target_round_trip_witness :
  expand_target_of
    (expand_cell "ctl00$ContentPlaceHolder1$gvTag$ctl02$lnkPlus" ""
       [Soup.Text "+"]) =
  Some "ctl00$ContentPlaceHolder1$gvTag$ctl02$lnkPlus"%string.
Proof.
  apply (expand_target_round_trip
           "ctl00$ContentPlaceHolder1$gvTag$ctl02$lnkPlus" ""
           [Soup.Text "+"]).
  reflexivity.
Defined.

(** ** Keys of the detail mapping *)

Lemma lower_char_not_capital (c : ascii) : is_capital (Py.lower_char c) = false.
Proof. destruct c as [[] [] [] [] [] [] [] []]; reflexivity. Qed.

Lemma all_chars_app (p : ascii -> bool) (a b : string) :
  all_chars p (a ++ b) = all_chars p a && all_chars p b.
Proof.
  induction a as [|c a IH]; simpl; [reflexivity|].
  now rewrite IH, andb_assoc.
Qed.

Lemma all_chars_replace (p : ascii -> bool) (old : ascii) (new s : string) :
  all_chars (fun c => p c && negb (Ascii.eqb c old)) new = true ->
  all_chars p s = true ->
  all_chars (fun c => p c && negb (Ascii.eqb c old)) (Py.replace old new s)
    = true.
Proof.
  intros N. induction s as [|c s IH]; simpl; intros H; [reflexivity|].
  apply andb_true_iff in H as [Hc Hs].
  destruct (Ascii.eqb c old) eqn:E.
  - rewrite all_chars_app, N. now apply IH.
  - simpl. rewrite Hc, E. now apply IH.
Qed.

Lemma all_chars_ext (p q : ascii -> bool) (s : string) :
  (forall c, p c = q c) -> all_chars p s = all_chars q s.
Proof.
  intros H. induction s as [|c s IH]; simpl; [reflexivity|].
  now rewrite H, IH.
Qed.

Lemma clean_key_key_chars (key : string) :
  all_chars key_char (clean_key key) = true.
Proof.
  unfold clean_key.
  rewrite (all_chars_ext key_char
             (fun c => (fun c => (fun c => negb (is_capital c)
                                   && negb (Ascii.eqb c " ")) c
                          && negb (Ascii.eqb c "/")) c
                       && negb (Ascii.eqb c "&")))
    by reflexivity.
  apply all_chars_replace; [reflexivity|].
  apply all_chars_replace; [reflexivity|].
  apply (all_chars_replace (fun c => negb (is_capital c))); [reflexivity|].
  unfold Py.lower. induction key as [|c key IH]; simpl; [reflexivity|].
  now rewrite lower_char_not_capital, IH.
Qed.

Lemma all_chars_occurs (p : ascii -> bool) (c : ascii) (s : string) :
  all_chars p s = true -> p c = false -> occurs c s = false.
Proof.
  intros H Hc. induction s as [|x s IH]; simpl in *; [reflexivity|].
  apply andb_true_iff in H as [Hx Hs]. rewrite (IH Hs), orb_false_r.
  destruct (Ascii.eqb_spec x c) as [->|N]; [congruence|reflexivity].
Qed.

Lemma all_chars_weaken (p q : ascii -> bool) (s : string) :
  (forall c, p c = true -> q c = true) ->
  all_chars p s = true -> all_chars q s = true.
Proof.
  intros H. induction s as [|x s IH]; simpl; [reflexivity|].
  intros Hs. apply andb_true_iff in Hs as [Hx Hs].
  now rewrite (H x Hx), IH.
Qed.

(** X7.  A label cleaned into a key holds no space, no slash, no ampersand
    and no ASCII capital letter, whatever the label. *)
Theorem clean_key_chars (key : string) :
  occurs " " (clean_key key) = false /\
  occurs "/" (clean_key key) = false /\
  occurs "&" (clean_key key) = false /\
  all_chars (fun c => negb (is_capital c)) (clean_key key) = true.
Proof.
  pose proof (clean_key_key_chars key) as H.
  repeat split;
    try (apply (all_chars_occurs key_char); [exact H|reflexivity]).
  apply (all_chars_weaken key_char); [|exact H].
  intros c Hc. unfold key_char in Hc.
  now destruct (is_capital c).
Qed.

Lemma in_set {V} (k k' : string) (v v' : V) (d : Py.dict V) :
  In (k, v) (Py.set k' v' d) -> (k = k' /\ v = v') \/ In (k, v) d.
Proof.
  induction d as [|[k2 v2] d IH]; simpl.
  - intros [[= <- <-]|[]]. auto.
  - destruct (String.eqb_spec k' k2) as [->|N]; simpl.
    + intros [[= <- <-]|H]; auto.
    + intros [[= <- <-]|H]; [auto|].
      apply IH in H as [?|?]; auto.
Qed.

Lemma fold_left_invariant {A B} (P : A -> Prop) (f : A -> B -> A)
    (l : list B) (init : A) :
  P init -> (forall acc x, In x l -> P acc -> P (f acc x)) ->
  P (fold_left f l init).
Proof.
  revert init. induction l as [|x l IH]; simpl; intros init H0 Hs; [exact H0|].
  apply IH; [apply Hs; auto|]. intros acc y Hy. apply Hs. auto.
Qed.

(** An entry of the detail mapping: a known field, or a fallback entry
    under the prefixed clean key of its label, with a value that is not
    empty. *)
Lemma detail_entries (soup : Soup.Node) (c k v : string) :
  In (k, v) (parse_citation_details soup c) ->
  In k known_fields \/
  (exists label, k = ("table_" ++ clean_key label)%string) /\ v <> ""%string.
Proof.
  unfold parse_citation_details.
  set (P := fun d : Py.dict string =>
              forall k v, In (k, v) d ->
                In k known_fields \/
                (exists label, k = ("table_" ++ clean_key label)%string)
                /\ v <> ""%string).
  enough (H : P (fold_left parse_fallback_table
                   (Soup.find_all_class "table" "table table-bordered mb-0"
                      soup)
                   (fold_left (parse_known soup) id_mappings [])))
    by (apply H).
  apply fold_left_invariant.
  - apply fold_left_invariant; [intros ? ? []|].
    intros acc [i f] Hin Hacc. unfold parse_known.
    destruct (Soup.find_by_id "span" i soup); [|exact Hacc].
    intros k0 v0 H0. apply in_set in H0 as [[-> _]|H0].
    + left. unfold known_fields. apply in_map_iff. now exists (i, f).
    + now apply Hacc.
  - intros acc table _ Hacc. unfold parse_fallback_table.
    apply fold_left_invariant; [exact Hacc|].
    intros acc' row _ Hacc'. unfold parse_fallback_row.
    destruct (Soup.find_all_in ["td"; "th"]%string row) as [|c0 [|c1 cs]];
      try exact Hacc'.
    destruct (String.eqb_spec (Soup.get_text_strip c0) ""); [exact Hacc'|].
    destruct (String.eqb_spec (Soup.get_text_strip c1) ""); [exact Hacc'|].
    cbn [negb andb].
    intros k0 v0 H0. apply in_set in H0 as [[-> ->]|H0].
    + right. split; [now exists (Soup.get_text_strip c0)|assumption].
    + now apply Hacc'.
Qed.


Lemma known_fields_not_prefixed (k : string) :
  In k known_fields -> Py.startswith "table_" k = false.
Proof.
  intros H. vm_compute in H.
  repeat (destruct H as [<-|H]; [reflexivity|]). contradiction.
Qed.

(** X8.  Every entry of the mapping parsed from a detail page is either one
    of the fourteen known fields or a fallback entry, whose key is the
    prefix table_ followed by a cleaned label and whose value is never
    empty; a known field never has that prefix. *)
Theorem detail_mapping_entries (soup : Soup.Node) (c k v : string) :
  Py.get k (parse_citation_details soup c) = Some v ->
  (In k known_fields /\ Py.startswith "table_" k = false) \/
  (Py.startswith "table_" k = true /\
   all_chars key_char (Py.drop 6 k) = true /\ v <> ""%string).
Proof.
  intros G. apply get_In in G.
  destruct (detail_entries soup c k v G) as [K|[[label ->] V]].
  - left. split; [exact K|now apply known_fields_not_prefixed].
  - right. split; [apply table_prefix|]. split; [|exact V].
    change (Py.drop 6 ("table_" ++ clean_key label)) with (clean_key label).
    apply clean_key_key_chars.
Qed.

Lemma detail_mapping_entries_witness :
  (In "table_needs_payment"%string known_fields /\
   Py.startswith "table_" "table_needs_payment" = false) \/
  (Py.startswith "table_" "table_needs_payment" = true /\
   all_chars key_char (Py.drop 6 "table_needs_payment") = true /\
   "Yes"%string <> ""%string).
Proof.
  apply (detail_mapping_entries colliding_page "A100"
           "table_needs_payment" "Yes").
  reflexivity.
Defined.

(** ** Known fields of the detail mapping *)

Lemma parse_known_other (soup : Soup.Node) (ms : list (string * string))
    (d : Py.dict string) (field : string) :
  ~ In field (map snd ms) ->
  Py.get field (fold_left (parse_known soup) ms d) = Py.get field d.
Proof.
  revert d. induction ms as [|[i f] ms IH]; simpl; intros d N; [reflexivity|].
  rewrite IH by tauto. unfold parse_known.
  destruct (Soup.find_by_id "span" i soup); [|reflexivity].
  apply get_set_neq. intros ->. tauto.
Qed.

Lemma parse_known_field (soup : Soup.Node) (ms : list (string * string))
    (d : Py.dict string) (i field : string) :
  NoDup (map snd ms) ->
  In (i, field) ms ->
  Py.get field (fold_left (parse_known soup) ms d) =
  match Soup.find_by_id "span" i soup with
  | Some el => Some (Soup.get_text_strip el)
  | None => Py.get field d
  end.
Proof.
  revert d. induction ms as [|[i0 f0] ms IH]; simpl; intros d ND Hin;
    [contradiction|].
  inversion ND as [|x l Hnotin ND']; subst.
  destruct Hin as [[= -> ->]|Hin].
  - rewrite parse_known_other by assumption. unfold parse_known.
    destruct (Soup.find_by_id "span" i soup); [apply get_set_eq|reflexivity].
  - rewrite (IH _ ND' Hin).
    destruct (Soup.find_by_id "span" i soup); [reflexivity|].
    unfold parse_known.
    destruct (Soup.find_by_id "span" i0 soup); [|reflexivity].
    apply get_set_neq. intros ->. apply Hnotin.
    apply in_map_iff. now exists (i, f0).
Qed.

(** X9.  In the mapping parsed from a detail page, the field of a known
    identifier is present exactly when the page has a span with that
    identifier, and then holds the stripped text of the first such span,
    whatever the fallback tables of the page contain; a page without the
    span leaves the field absent rather than empty. *)
Theorem known_field_from_span (soup : Soup.Node) (c i field : string) :
  In (i, field) id_mappings ->
  Py.get field (parse_citation_details soup c) =
  option_map Soup.get_text_strip (Soup.find_by_id "span" i soup).
Proof.
  intros Hin.
  rewrite fallback_keeps_known_fields
    by (apply in_map_iff; now exists (i, field)).
  rewrite (parse_known_field soup id_mappings [] i field); [|
    |exact Hin].
  - now destruct (Soup.find_by_id "span" i soup).
  - vm_compute. repeat constructor; simpl; intuition discriminate.
Qed.

Lemma known_field_from_span_witness :
  Py.get "status" (parse_citation_details colliding_page "A100") =
  option_map Soup.get_text_strip
    (Soup.find_by_id "span" "lb_Status" colliding_page).
Proof.
  apply (known_field_from_span colliding_page "A100" "lb_Status" "status").
  simpl. auto 10.
Defined.

(** ** Summary fields in the records *)

Lemma fetch_details_parsed (net : Net) (cit : string)
    (base : option (Py.dict string)) (w w' : World)
    (details : Py.dict string) :
  fetch_citation_details_optimized net cit base w = (Ok details, w') ->
  exists soup, details = parse_citation_details soup cit.
Proof.
  unfold fetch_citation_details_optimized. unfold bind at 1.
  match goal with
  | |- context [match ?m w with _ => _ end] =>
      destruct (m w) as [[data|e] w1]; [|discriminate]
  end.
  unfold bind at 1. unfold session_post, send.
  destruct (net (sent w1) _) as [r|e]; [|discriminate].
  unfold bind at 1. rewrite raise_for_status_pure.
  destruct (fst (raise_for_status r [])) as [[]|e]; [|discriminate].
  unfold ret. intros [= <- _]. now exists (body r).
Qed.

Lemma mem_set_inv {V} (k k' : string) (v : V) (d : Py.dict V) :
  Py.mem k (Py.set k' v d) = true -> k = k' \/ Py.mem k d = true.
Proof.
  destruct (String.eqb_spec k k') as [->|N]; [auto|].
  unfold Py.mem. rewrite get_set_neq by assumption. auto.
Qed.

Lemma cleaned_keys (k : string) (details acc : Py.dict string) :
  Py.mem k (fold_left clean_detail details acc) = true ->
  Py.mem k acc = true \/
  exists k' v,
    In (k', v) details /\
    k = if Py.startswith "table_" k' then Py.drop 6 k' else k'.
Proof.
  revert acc. induction details as [|[k0 v0] details IH]; intros acc H;
    simpl in H; [auto|].
  apply IH in H as [H|(k' & v & Hin & E)].
  - destruct (Py.startswith "table_" k0) eqn:T;
      apply mem_set_inv in H as [->|H]; auto;
      right; exists k0, v0; rewrite T; simpl; auto.
  - right. exists k', v. simpl. auto.
Qed.

Lemma summary_names_not_cleaned (soup : Soup.Node) (c name : string) :
  In name ["Citation"; "Date Issued"; "Status"; "Amount Due"]%string ->
  Py.mem name (fold_left clean_detail (parse_citation_details soup c) [])
    = false.
Proof.
  intros Hn.
  destruct (Py.mem name (fold_left clean_detail
                           (parse_citation_details soup c) [])) eqn:M;
    [|reflexivity].
  exfalso. apply cleaned_keys in M as [M|(k' & v & Hin & E)];
    [discriminate|].
  destruct (detail_entries soup c k' v Hin) as [K|[[label ->] _]].
  - rewrite (known_fields_not_prefixed k' K) in E. subst k'.
    vm_compute in K. simpl in Hn.
    destruct Hn as [<-|[<-|[<-|[<-|[]]]]]; intuition discriminate.
  - rewrite table_prefix in E.
    change (Py.drop 6 ("table_" ++ clean_key label)) with (clean_key label)
      in E.
    pose proof (clean_key_key_chars label) as C. rewrite <- E in C.
    simpl in Hn. destruct Hn as [<-|[<-|[<-|[<-|[]]]]]; discriminate.
Qed.

(** Whatever the detail fetch gives, the record of the worker shows the
    summary fields of its row, and sorts under the row's citation id. *)
Lemma worker_shows_summary (net : Net) (args : WorkerArgs) (w w' : World)
    (rec : CitationInfo) :
  fetch_citation_details_worker net args w = (Ok rec, w') ->
  shows_summary (arg_row args) rec /\
  citation_key rec = Citation (arg_row args).
Proof.
  intros Hw.
  enough (S : shows_summary (arg_row args) rec).
  { split; [exact S|]. unfold citation_key. destruct S as [-> _].
    reflexivity. }
  destruct (fetch_citation_details_optimized net (arg_citation_number args)
              (arg_base_form_data args) w) as [[details|e] w1] eqn:F.
  - rewrite (worker_on_success net args w w1 details F) in Hw.
    injection Hw as <- _.
    destruct (fetch_details_parsed _ _ _ _ _ _ F) as (soup & ->).
    destruct (parse_citation_details soup (arg_citation_number args))
      as [|kv d] eqn:D; [repeat split|].
    rewrite <- D. cbv zeta.
    assert (G : forall name,
              In name ["Citation"; "Date Issued"; "Status"; "Amount Due"]%string ->
              Py.get name
                (Py.update (summary_only (arg_row args))
                   (as_values (fold_left clean_detail
                      (parse_citation_details soup (arg_citation_number args))
                      []))) =
              Py.get name (summary_only (arg_row args))).
    { intros name Hn. apply get_update_absent. rewrite mem_as_values.
      now apply summary_names_not_cleaned. }
    destruct (negb (Py.mem "due_date" _)).
    + unfold shows_summary. rewrite !get_set_neq by discriminate.
      rewrite !G by (simpl; auto). repeat split.
    + unfold shows_summary. rewrite !G by (simpl; auto). repeat split.
  - destruct (worker_on_failure net args w w1 e F) as (rec' & E & C & _).
    rewrite E in Hw. injection Hw as -> _.
    destruct C as (C1 & C2 & C3 & C4 & _). repeat split; assumption.
Qed.

(** X10.  In a merged result the two partitions hold, for every row of the
    results table, one record that shows the Citation, Date Issued, Status
    and Amount Due of that row, whether its detail fetch succeeded or not
    and whatever its detail page held: no detail field or fallback entry
    takes the place of a summary field. *)
Theorem output_records_show_rows (net : Net) (s1 s2 : list nat)
    (tag : string) (w w1 : World) (soup : Soup.Node) (data : Py.dict string)
    (table : Soup.Node) :
  search net tag w = (Ok (soup, data), w1) ->
  find_results_table soup = Some table ->
  parse_main_rows table <> [] ->
  exists res w2 recs,
    fetch_all_citations net s1 s2 tag w = (Ok res, w2) /\
    Forall2 shows_summary (parse_main_rows table) recs /\
    Permutation recs (paid_citations res ++ open_citations res).
Proof.
  intros Hs Hf Hr.
  destruct (dispatch_produced net s1 s2 data (parse_main_rows table) w1)
    as (recs & F & P).
  eexists. eexists. exists recs. split.
  - apply (fetch_all_citations_found _ _ _ _ _ _ _ _ _ Hs Hf Hr).
  - split.
    + eapply Forall2_impl; [|exact F].
      intros row rec (wa & wb & E).
      now apply (worker_shows_summary _ _ _ _ _ E).
    + rewrite P. apply (merge_well_partitioned tag _ _).
Qed.

Lemma output_records_show_rows_witness :
  exists res w2 recs,
    fetch_all_citations sample_net [1] [] " abc123 " [] = (Ok res, w2) /\
    Forall2 shows_summary (parse_main_rows sample_table) recs /\
    Permutation recs (paid_citations res ++ open_citations res).
Proof.
  apply (output_records_show_rows sample_net [1] [] " abc123 " []
           sample_world results_page sample_form sample_table).
  - reflexivity.
  - reflexivity.
  - discriminate.
Defined.

(** ** The order in which the detail fetches complete *)

Lemma str_leb_antisym (a b : string) :
  Py.str_leb a b = true -> Py.str_leb b a = true -> a = b.
Proof.
  revert b. induction a as [|x a IH]; intros [|y b]; simpl;
    try reflexivity; try discriminate.
  destruct (Nat.ltb_spec (nat_of_ascii x) (nat_of_ascii y));
    destruct (Nat.ltb_spec (nat_of_ascii y) (nat_of_ascii x));
    destruct (Nat.eqb_spec (nat_of_ascii x) (nat_of_ascii y));
    destruct (Nat.eqb_spec (nat_of_ascii y) (nat_of_ascii x));
    try discriminate; try lia.
  intros H1 H2. f_equal; [|now apply IH].
  rewrite <- (ascii_nat_embedding x), <- (ascii_nat_embedding y).
  now f_equal.
Qed.

Lemma filter_perm {A} (p : A -> bool) (l l' : list A) :
  Permutation l l' -> Permutation (filter p l) (filter p l').
Proof.
  induction 1 as [|x l l' P IH|x y l|l l' l'' P1 IH1 P2 IH2]; simpl.
  - constructor.
  - destruct (p x); [now constructor|exact IH].
  - destruct (p x), (p y); try reflexivity. apply perm_swap.
  - now transitivity (filter p l').
Qed.

Lemma merge_summary_perm (tag : string) (due : option string)
    (l l' : list CitationInfo) :
  Permutation l l' ->
  summary (merge tag due l) = summary (merge tag due l').
Proof.
  intros P. unfold merge. cbn [summary].
  assert (Q : Permutation (sort_by_key l) (sort_by_key l')).
  { rewrite !sort_by_key_perm. exact P. }
  rewrite (Permutation_length Q).
  rewrite (Permutation_length (filter_perm needs_payment _ _ Q)).
  rewrite (Permutation_length
             (filter_perm (fun c => negb (needs_payment c)) _ _ Q)).
  reflexivity.
Qed.

Lemma sorted_unique (a b : list CitationInfo) :
  StronglySorted key_le a -> StronglySorted key_le b ->
  Permutation a b -> NoDup (map citation_key a) -> a = b.
Proof.
  intros Sa. revert b. induction Sa as [|x a Sa IH Fa]; intros b Sb P ND.
  - apply Permutation_nil in P. now subst.
  - destruct b as [|y b];
      [apply Permutation_sym, Permutation_nil in P; discriminate|].
    apply StronglySorted_inv in Sb as [Sb Fb].
    simpl in ND. inversion ND as [|k ks Hnotin ND']; subst.
    assert (E : x = y).
    { assert (Hy : In y (x :: a))
        by (apply (Permutation_in _ (Permutation_sym P)); simpl; auto).
      destruct Hy as [Hy|Hy]; [exact Hy|exfalso].
      assert (Hx : In x (y :: b))
        by (apply (Permutation_in _ P); simpl; auto).
      destruct Hx as [Hx|Hx]; [subst; apply Hnotin; now apply in_map|].
      apply Hnotin.
      replace (citation_key x) with (citation_key y);
        [now apply in_map|].
      apply str_leb_antisym.
      - exact (proj1 (Forall_forall _ _) Fb x Hx).
      - exact (proj1 (Forall_forall _ _) Fa y Hy). }
    subst y. f_equal. apply IH; [exact Sb| |exact ND'].
    now apply Permutation_cons_inv in P.
Qed.

Lemma sort_by_key_perm_unique (l l' : list CitationInfo) :
  Permutation l l' -> NoDup (map citation_key l) ->
  sort_by_key l = sort_by_key l'.
Proof.
  intros P ND. apply sorted_unique; try apply sort_by_key_sorted.
  - rewrite !sort_by_key_perm. exact P.
  - apply (Permutation_NoDup (l := map citation_key l)); [|exact ND].
    apply Permutation_map. symmetry. apply sort_by_key_perm.
Qed.

Lemma dispatch_completion (net : Net) (s1 s2 s2' : list nat)
    (data : Py.dict string) (rows : list SummaryRow) (w : World) :
  snd (dispatch net s1 s2 data rows w) =
    snd (dispatch net s1 s2' data rows w) /\
  Permutation (fst (dispatch net s1 s2 data rows w))
              (fst (dispatch net s1 s2' data rows w)).
Proof.
  unfold dispatch.
  destruct (run_tasks net _ w) as [futs w']. cbn [fst snd].
  split; [reflexivity|].
  rewrite !collect_futures_records. cbn [app].
  apply Permutation_map. rewrite !pick_perm. reflexivity.
Qed.

(** X11.  The counts of the summary, and the exception of a run that
    fails, do not depend on the order in which the detail fetches
    complete: two runs that differ only in that order send the same
    requests and report the same totals. *)
Theorem summary_ignores_completion_order (net : Net)
    (s1 s2 s2' : list nat) (tag : string) (w : World) :
  snd (fetch_all_citations net s1 s2 tag w) =
    snd (fetch_all_citations net s1 s2' tag w) /\
  summary_of (fst (fetch_all_citations net s1 s2 tag w)) =
    summary_of (fst (fetch_all_citations net s1 s2' tag w)).
Proof.
  unfold fetch_all_citations, bind.
  destruct (search net tag w) as [[[soup data]|e] w1]; [|auto].
  destruct (find_results_table soup) as [table|]; [|auto].
  destruct (parse_main_rows table) as [|row rows]; [auto|].
  destruct (dispatch_completion net s1 s2 s2' data (row :: rows) w1)
    as [W P].
  destruct (dispatch net s1 s2 data (row :: rows) w1) as [c wa].
  destruct (dispatch net s1 s2' data (row :: rows) w1) as [c' wb].
  cbn [fst snd] in *. split; [exact W|].
  cbn [summary_of]. f_equal. now apply merge_summary_perm.
Qed.

(** X12.  When the rows of the results table have pairwise distinct
    citation ids, the whole result is the same whatever the order in which
    the detail fetches complete. *)
Theorem result_ignores_completion_order (net : Net)
    (s1 s2 s2' : list nat) (tag : string) (w w1 : World)
    (soup : Soup.Node) (data : Py.dict string) (table : Soup.Node) :
  search net tag w = (Ok (soup, data), w1) ->
  find_results_table soup = Some table ->
  NoDup (map Citation (parse_main_rows table)) ->
  fetch_all_citations net s1 s2 tag w =
  fetch_all_citations net s1 s2' tag w.
Proof.
  intros Hs Hf ND. unfold fetch_all_citations, bind. rewrite Hs, Hf.
  destruct (parse_main_rows table) as [|row rows] eqn:R; [reflexivity|].
  destruct (dispatch_completion net s1 s2 s2' data (row :: rows) w1)
    as [W P].
  destruct (dispatch_produced net s1 s2 data (row :: rows) w1)
    as (recs & F & Q).
  destruct (dispatch net s1 s2 data (row :: rows) w1) as [c wa].
  destruct (dispatch net s1 s2' data (row :: rows) w1) as [c' wb].
  cbn [fst snd] in *. subst wb. f_equal. f_equal.
  assert (K : map citation_key recs = map Citation (row :: rows)).
  { clear - F. induction F as [|r rec rs recs' (wa' & wb & E) F IH];
      [reflexivity|].
    simpl. rewrite IH.
    now rewrite (proj2 (worker_shows_summary _ _ _ _ _ E)). }
  assert (NDc : NoDup (map citation_key c)).
  { apply (Permutation_NoDup (l := map citation_key recs)).
    - now apply Permutation_map.
    - now rewrite K. }
  unfold merge. rewrite (sort_by_key_perm_unique c c' P NDc).
  rewrite <- (Permutation_length
                (l := sort_by_key c) (l' := sort_by_key c'))
    by (rewrite !sort_by_key_perm; exact P).
  rewrite (sort_by_key_perm_unique c c' P NDc). reflexivity.
Qed.

Lemma result_ignores_completion_order_witness :
  fetch_all_citations sample_net [1] [] " abc123 " [] =
  fetch_all_citations sample_net [1] [1; 0] " abc123 " [].
Proof.
  apply (result_ignores_completion_order sample_net [1] [] [1; 0]
           " abc123 " [] sample_world results_page sample_form sample_table).
  - reflexivity.
  - reflexivity.
  - repeat constructor; simpl; intuition discriminate.
Defined.

(** ** The API route *)

Lemma search_raises_world (net : Net) (tag : string) (w w' : World)
    (e : Exn) :
  search net tag w = (Raise e, w') ->
  w' = w ++ [Sent get_request] \/
  exists data, w' = w ++ [Sent get_request; Sent (mkRequest POST data)].
Proof.
  unfold search. unfold bind at 1. unfold session_get, send at 1.
  fold get_request.
  destruct (net (sent w) get_request) as [r|e0]; [|intros [= _ <-]; auto].
  unfold bind at 1. rewrite raise_for_status_pure.
  destruct (fst (raise_for_status r [])) as [[]|e0];
    [|intros [= _ <-]; auto].
  unfold bind at 1. unfold session_post, send.
  destruct (net _ _) as [r2|e2].
  - unfold bind at 1. rewrite raise_for_status_pure.
    destruct (fst (raise_for_status r2 [])) as [[]|e0]; [discriminate|].
    intros [= _ <-]. right. eexists. now rewrite <- app_assoc.
  - intros [= _ <-]. right. eexists. now rewrite <- app_assoc.
Qed.

Lemma pipeline_raises_in_search (net : Net) (s1 s2 : list nat)
    (tag : string) (w w' : World) (e : Exn) :
  fetch_all_citations net s1 s2 tag w = (Raise e, w') ->
  search net tag w = (Raise e, w').
Proof.
  unfold fetch_all_citations, bind, ret.
  destruct (search net tag w) as [[[soup data]|e0] w1];
    [|intros [= <- <-]; reflexivity].
  destruct (find_results_table soup) as [table|]; [|discriminate].
  destruct (parse_main_rows table); [discriminate|].
  destruct (dispatch _ _ _ _ _ _); discriminate.
Qed.

(** X13.  The API route answers 400 with the usage message, without
    sending any request, exactly when the tag is missing or empty; it
    answers 200 with the result of the pipeline when the pipeline returns;
    and it answers 500 with the cause only when the search itself failed,
    after the one or two requests of the search: a detail fetch that fails
    never makes the answer a 500. *)
Theorem api_answers (net : Net) (s1 s2 : list nat) (tag : option string)
    (w : World) :
  let answer := get_parking_tickets net s1 s2 tag w in
  (snd (fst answer) = 400%Z /\ (tag = None \/ tag = Some ""%string) /\
   snd answer = w /\ exists e u, fst (fst answer) = UsageError e u)
  \/ (exists t res,
        tag = Some t /\ t <> ""%string /\ snd (fst answer) = 200%Z /\
        fetch_all_citations net s1 s2 t w = (Ok res, snd answer) /\
        fst (fst answer) = Found res)
  \/ (exists t e,
        tag = Some t /\ t <> ""%string /\ snd (fst answer) = 500%Z /\
        search net t w = (Raise e, snd answer) /\
        fst (fst answer) =
          FetchError "Failed to fetch parking ticket data" (exn_msg e) /\
        (sent (snd answer) = sent w + 1 \/ sent (snd answer) = sent w + 2)).
Proof.
  destruct tag as [[|c t]|]; cbv zeta.
  - left. simpl. repeat split; eauto.
  - right. unfold get_parking_tickets.
    destruct (fetch_all_citations net s1 s2 (String c t) w)
      as [[res|e] w'] eqn:F.
    + left. exists (String c t), res. repeat split; auto. discriminate.
    + right. exists (String c t), e. cbn [fst snd].
      apply pipeline_raises_in_search in F.
      repeat split; auto; [discriminate|].
      apply search_raises_world in F as [->|[data ->]];
        rewrite sent_app; auto.
  - left. simpl. repeat split; eauto.
Qed.

Example api_missing_tag :
  get_parking_tickets sample_net [] [] None [] =
  ((UsageError "Missing required parameter 'tag'"
      "Use /api/parking-tickets?tag=YOUR_TAG_NUMBER", 400%Z), []).
Proof. reflexivity. Qed.

Example api_search_timeout :
  get_parking_tickets dead_net [] [] (Some "abc123"%string) [] =
  ((FetchError "Failed to fetch parking ticket data" "", 500%Z),
   [Sent get_request]).
Proof. reflexivity. Qed.

(** ** The fields a form submits *)

Lemma in_select_with_attr (name a : string) (soup el : Soup.Node) :
  In el (Soup.select_with_attr name a soup) <->
  In el (Soup.descendants soup) /\ Soup.is_tag name el = true /\
  Soup.has_attr a el = true.
Proof.
  unfold Soup.select_with_attr, Soup.find_all.
  rewrite !filter_In. tauto.
Qed.

Lemma find_with_attr_found (name a : string) (el o : Soup.Node) :
  Soup.find_with_attr name a el = Some o ->
  exists o', Soup.find name el = Some o'.
Proof.
  unfold Soup.find_with_attr, Soup.find.
  destruct (Soup.find_all name el) as [|x l]; [discriminate|].
  intros _. now exists x.
Qed.

Lemma fold_left_keeps {B} (k : string) (f : Py.dict string -> B -> Py.dict string)
    (l : list B) (acc : Py.dict string) :
  (forall acc x, Py.mem k acc = true -> Py.mem k (f acc x) = true) ->
  Py.mem k acc = true -> Py.mem k (fold_left f l acc) = true.
Proof.
  intros M. revert acc. induction l as [|x l IH]; simpl; intros acc H;
    [exact H|].
  apply IH, M, H.
Qed.

Lemma fold_left_reaches {B} (k : string)
    (f : Py.dict string -> B -> Py.dict string) (l : list B) (el : B)
    (acc : Py.dict string) :
  (forall acc x, Py.mem k acc = true -> Py.mem k (f acc x) = true) ->
  In el l -> (forall acc, Py.mem k (f acc el) = true) ->
  Py.mem k (fold_left f l acc) = true.
Proof.
  intros M Hin Hel. revert acc.
  induction l as [|x l IH]; simpl; intros acc; [contradiction|].
  destruct Hin as [->|Hin]; [|now apply IH].
  apply fold_left_keeps; [exact M|apply Hel].
Qed.

Lemma collect_input_keeps (k : string) (acc : Py.dict string)
    (x : Soup.Node) :
  Py.mem k acc = true -> Py.mem k (collect_input acc x) = true.
Proof.
  intros H. unfold collect_input.
  destruct (Soup.attr "name" x); [|exact H].
  destruct (_ || _); [destruct (Soup.has_attr "checked" x)|];
    try exact H; now apply mem_set_mono.
Qed.

Lemma collect_select_keeps (k : string) (acc : Py.dict string)
    (x : Soup.Node) :
  Py.mem k acc = true -> Py.mem k (collect_select acc x) = true.
Proof.
  intros H. unfold collect_select.
  destruct (Soup.attr "name" x); [|exact H].
  destruct (Soup.find_with_attr "option" "selected" x);
    [now apply mem_set_mono|].
  destruct (Soup.find "option" x); [now apply mem_set_mono|exact H].
Qed.

Lemma collect_textarea_keeps (k : string) (acc : Py.dict string)
    (x : Soup.Node) :
  Py.mem k acc = true -> Py.mem k (collect_textarea acc x) = true.
Proof.
  intros H. unfold collect_textarea.
  destruct (Soup.attr "name" x); [now apply mem_set_mono|exact H].
Qed.

Lemma collected_is_submitted (soup : Soup.Node) (k : string) :
  Py.mem k (collect_form_fields soup) = true -> submitted soup k.
Proof.
  unfold collect_form_fields. cbv zeta.
  set (P := fun d : Py.dict string => Py.mem k d = true -> submitted soup k).
  change (P (fold_left collect_textarea
               (Soup.select_with_attr "textarea" "name" soup)
               (fold_left collect_select
                  (Soup.select_with_attr "select" "name" soup)
                  (fold_left collect_input
                     (Soup.select_with_attr "input" "name" soup) [])))).
  apply fold_left_invariant; [apply fold_left_invariant;
                                [apply fold_left_invariant|]|].
  - intros H. discriminate.
  - intros acc x Hx Hacc H. apply in_select_with_attr in Hx as (D & T & _).
    unfold collect_input in H.
    destruct (Soup.attr "name" x) as [nm|] eqn:N; [|now apply Hacc].
    fold (is_box x) in H.
    destruct (is_box x) eqn:B; [destruct (Soup.has_attr "checked" x) eqn:C|];
      try (now apply Hacc);
      (apply mem_set_inv in H as [->|H]; [|now apply Hacc]);
      exists x; repeat split; try assumption;
      unfold submits; rewrite T, B, ?C; reflexivity.
  - intros acc x Hx Hacc H. apply in_select_with_attr in Hx as (D & T & _).
    unfold collect_select in H.
    destruct (Soup.attr "name" x) as [nm|] eqn:N; [|now apply Hacc].
    assert (S : forall o, Soup.find "option" x = Some o ->
                k = nm \/ Py.mem k acc = true -> submitted soup k).
    { intros o Ho [->|Hk]; [|now apply Hacc].
      exists x. repeat split; try assumption.
      unfold submits. rewrite T, Ho. simpl. now rewrite orb_true_r. }
    destruct (Soup.find_with_attr "option" "selected" x) as [o|] eqn:F.
    + destruct (find_with_attr_found _ _ _ _ F) as (o' & Ho').
      apply mem_set_inv in H. now apply (S o' Ho').
    + destruct (Soup.find "option" x) as [o|] eqn:Ho; [|now apply Hacc].
      apply mem_set_inv in H. now apply (S o eq_refl).
  - intros acc x Hx Hacc H. apply in_select_with_attr in Hx as (D & T & _).
    unfold collect_textarea in H.
    destruct (Soup.attr "name" x) as [nm|] eqn:N; [|now apply Hacc].
    apply mem_set_inv in H as [->|H]; [|now apply Hacc].
    exists x. repeat split; try assumption.
    unfold submits. rewrite T. now rewrite orb_true_r.
Qed.

Lemma submitted_is_collected (soup : Soup.Node) (k : string) :
  submitted soup k -> Py.mem k (collect_form_fields soup) = true.
Proof.
  intros (el & D & N & S). unfold collect_form_fields. cbv zeta.
  assert (A : Soup.has_attr "name" el = true)
    by (unfold Soup.has_attr, Py.mem; unfold Soup.attr in N; now rewrite N).
  unfold submits in S.
  apply orb_true_iff in S as [S|S]; [apply orb_true_iff in S as [S|S]|].
  - apply andb_true_iff in S as [T B].
    apply fold_left_keeps; [apply collect_textarea_keeps|].
    apply fold_left_keeps; [apply collect_select_keeps|].
    apply (fold_left_reaches k collect_input _ el);
      [apply collect_input_keeps|apply in_select_with_attr; auto|].
    intros acc. unfold collect_input. rewrite N. fold (is_box el).
    destruct (is_box el); simpl in B; [rewrite B|]; apply mem_set_same.
  - apply andb_true_iff in S as [T O].
    apply fold_left_keeps; [apply collect_textarea_keeps|].
    apply (fold_left_reaches k collect_select _ el);
      [apply collect_select_keeps|apply in_select_with_attr; auto|].
    intros acc. unfold collect_select. rewrite N.
    destruct (Soup.find_with_attr "option" "selected" el);
      [apply mem_set_same|].
    destruct (Soup.find "option" el); [apply mem_set_same|discriminate].
  - apply (fold_left_reaches k collect_textarea _ el);
      [apply collect_textarea_keeps|apply in_select_with_attr; auto|].
    intros acc. unfold collect_textarea. rewrite N. apply mem_set_same.
Qed.

(** X14.  The form fields collected from a page are exactly the names of
    its controls that submit a value: an input that is not a check box or a
    radio button, or is one and is checked; a select that has an option; a
    textarea.  A box that is not checked and a select without options
    contribute nothing. *)
Theorem collected_fields (soup : Soup.Node) (k : string) :
  Py.mem k (collect_form_fields soup) = true <-> submitted soup k.
Proof.
  split; [apply collected_is_submitted|apply submitted_is_collected].
Qed.

Example collect_form_fields_boxes :
  collect_form_fields boxes_page = [("plate"%string, ""%string)].
Proof. reflexivity. Qed.

(** ** The tag and the due date in the output *)

(** X15.  A result the pipeline returns reports as tag_number the tag
    stripped and in upper case, which is the very value the search has
    submitted in the tag field, whichever of the three outcomes it is. *)
Theorem reported_tag_is_searched (net : Net) (s1 s2 : list nat)
    (tag : string) (w w' : World) (res : SearchResult) :
  fetch_all_citations net s1 s2 tag w = (Ok res, w') ->
  tag_number res = Py.upper (Py.strip tag) /\
  exists soup data w1,
    search net tag w = (Ok (soup, data), w1) /\
    Py.get txtTag data = Some (tag_number res).
Proof.
  unfold fetch_all_citations, bind, ret.
  destruct (search net tag w) as [[[soup data]|e] w1] eqn:S; [|discriminate].
  destruct (search_done net tag w w1 soup data S)
    as (r & _ & _ & _ & _ & T & _).
  assert (G : forall res0 : SearchResult,
            tag_number res0 = Py.upper (Py.strip tag) ->
            tag_number res0 = Py.upper (Py.strip tag) /\
            exists soup0 data0 w0,
              (Ok (soup, data), w1) = (Ok (soup0, data0), w0) /\
              Py.get txtTag data0 = Some (tag_number res0)).
  { intros res0 E. split; [exact E|]. exists soup, data, w1.
    split; [reflexivity|]. now rewrite E. }
  destruct (find_results_table soup) as [table|].
  - destruct (parse_main_rows table) as [|row rows].
    + intros [= <- _]. now apply G.
    + destruct (dispatch _ _ _ _ _ _). intros [= <- _]. now apply G.
  - intros [= <- _]. now apply G.
Qed.

Lemma reported_tag_is_searched_witness :
  tag_number (merge " abc123 " (Some "$36.00"%string)
                (fst (dispatch sample_net [1] [] sample_form
                        (parse_main_rows sample_table) sample_world))) =
    Py.upper (Py.strip " abc123 ") /\
  exists soup data w1,
    search sample_net " abc123 " [] = (Ok (soup, data), w1) /\
    Py.get txtTag data =
      Some (tag_number
              (merge " abc123 " (Some "$36.00"%string)
                 (fst (dispatch sample_net [1] [] sample_form
                         (parse_main_rows sample_table) sample_world)))).
Proof.
  apply (reported_tag_is_searched sample_net [1] [] " abc123 " []
           (snd (fetch_all_citations sample_net [1] [] " abc123 " []))).
  reflexivity.
Defined.

(** X16.  A record lacks the due_date field only when the detail fetch
    succeeded with an empty mapping, and the record is then the summary of
    its row alone; after a failed fetch or a non-empty mapping the field is
    always there, from the page or as the placeholder. *)
Theorem due_date_missing_only_without_details (net : Net)
    (args : WorkerArgs) (w w' : World) (rec : CitationInfo) :
  fetch_citation_details_worker net args w = (Ok rec, w') ->
  Py.mem "due_date" rec = true \/
  (fst (fetch_citation_details_optimized net (arg_citation_number args)
          (arg_base_form_data args) w) = Ok [] /\
   rec = summary_only (arg_row args)).
Proof.
  intros Hw.
  destruct (fetch_citation_details_optimized net (arg_citation_number args)
              (arg_base_form_data args) w) as [[details|e] w1] eqn:F.
  - rewrite (worker_on_success net args w w1 details F) in Hw.
    injection Hw as <- _.
    destruct details as [|kv d]; [right; split; reflexivity|].
    left. cbv zeta.
    set (ci := Py.update (summary_only (arg_row args))
                 (as_values (fold_left clean_detail (kv :: d) []))).
    destruct (Py.mem "due_date" ci) eqn:M; cbn [negb]; [exact M|].
    apply mem_set_mono, mem_set_same.
  - left. destruct (worker_on_failure net args w w1 e F) as (rec' & E & C & _).
    rewrite E in Hw. injection Hw as -> _.
    unfold Py.mem. destruct C as (_ & _ & _ & _ & _ & -> & _). reflexivity.
Qed.

Lemma due_date_missing_only_without_details_witness :
  Py.mem "due_date" (summary_only (arg_row sample_args)) = true \/
  (fst (fetch_citation_details_optimized mixed_net
          (arg_citation_number sample_args)
          (arg_base_form_data sample_args) []) = Ok [] /\
   summary_only (arg_row sample_args) = summary_only (arg_row sample_args)).
Proof.
  apply (due_date_missing_only_without_details mixed_net sample_args []
           (snd (fetch_citation_details_worker mixed_net sample_args []))).
  reflexivity.
Defined.

(** ** A detail fetch that is given no form *)

(** X17.  Given no form, or an empty one, a detail fetch first GETs the
    landing page.  When that fails it raises after this one request;
    otherwise it posts one form built from the page it got: the
    citation-search button as event target, the citation id in the citation
    field and the three hidden-state values of that page. *)
Theorem fetch_without_form (net : Net) (cit : string)
    (base : option (Py.dict string)) (w : World) :
  no_form base ->
  (exists e, answer net (sent w) get_request = Raise e /\
             fetch_citation_details_optimized net cit base w =
               (Raise e, w ++ [Sent get_request]))
  \/ (exists page data,
        answer net (sent w) get_request = Ok page /\
        snd (fetch_citation_details_optimized net cit base w) =
          w ++ [Sent get_request; Sent (mkRequest POST data)] /\
        Py.get "__EVENTTARGET" data = Some btnSubmit_CitSearch /\
        Py.get txtcitn data = Some cit /\
        Py.get "__VIEWSTATE" data = Some (val page "__VIEWSTATE") /\
        Py.get "__EVENTVALIDATION" data =
          Some (val page "__EVENTVALIDATION") /\
        Py.get "__VIEWSTATEGENERATOR" data =
          Some (val page "__VIEWSTATEGENERATOR")).
Proof.
  intros NF.
  assert (E : nonempty_form base = None)
    by (destruct NF as [->| ->]; reflexivity).
  unfold fetch_citation_details_optimized. rewrite E.
  unfold answer, bind, session_get, session_post, send.
  change (mkRequest GET []) with get_request.
  destruct (net (sent w) get_request) as [r|e];
    [|left; exists e; split; reflexivity].
  rewrite (raise_for_status_pure r (w ++ [Sent get_request])).
  destruct (fst (raise_for_status r [])) as [[]|e];
    [|left; exists e; split; reflexivity].
  right. unfold ret at 1.
  set (data := set_if_present DropDownState "FL" _).
  exists (body r), data. split; [reflexivity|]. split.
  - destruct (net _ (mkRequest POST data)) as [r2|e2];
      [|cbn [snd]; now rewrite <- app_assoc].
    rewrite (raise_for_status_pure r2).
    destruct (fst (raise_for_status r2 [])) as [[]|e2];
      cbn [snd]; now rewrite <- app_assoc.
  - subst data. repeat split.
    + rewrite !get_set_if_present_other by discriminate.
      rewrite !get_set_neq by discriminate. apply get_set_eq.
    + rewrite !get_set_if_present_other by discriminate. apply get_set_eq.
    + rewrite !get_set_if_present_other by discriminate.
      rewrite !get_set_neq by discriminate.
      apply get_hidden_overlay. simpl. auto.
    + rewrite !get_set_if_present_other by discriminate.
      rewrite !get_set_neq by discriminate.
      apply get_hidden_overlay. simpl. auto.
    + rewrite !get_set_if_present_other by discriminate.
      rewrite !get_set_neq by discriminate.
      apply get_hidden_overlay. simpl. auto.
Qed.

Lemma fetch_without_form_witness :
  (exists e, answer mixed_net (sent one_sent) get_request = Raise e /\
             fetch_citation_details_optimized mixed_net "B200" None one_sent =
               (Raise e, one_sent ++ [Sent get_request]))
  \/ (exists page data,
        answer mixed_net (sent one_sent) get_request = Ok page /\
        snd (fetch_citation_details_optimized mixed_net "B200" None
               one_sent) =
          one_sent ++ [Sent get_request; Sent (mkRequest POST data)] /\
        Py.get "__EVENTTARGET" data = Some btnSubmit_CitSearch /\
        Py.get txtcitn data = Some "B200"%string /\
        Py.get "__VIEWSTATE" data = Some (val page "__VIEWSTATE") /\
        Py.get "__EVENTVALIDATION" data =
          Some (val page "__EVENTVALIDATION") /\
        Py.get "__VIEWSTATEGENERATOR" data =
          Some (val page "__VIEWSTATEGENERATOR")).
Proof.
  apply (fetch_without_form mixed_net "B200" None one_sent).
  left. reflexivity.
Defined.

(** ** The merged result *)

Lemma str_leb_lex (a b : string) : Py.str_leb a b = true -> lex_le a b.
Proof.
  revert b. induction a as [|x a IH]; intros [|y b]; cbn [Py.str_leb];
    cbv zeta; intros L; try (now constructor); try discriminate.
  destruct (Nat.ltb_spec (nat_of_ascii x) (nat_of_ascii y));
    [now constructor|].
  destruct (Nat.eqb_spec (nat_of_ascii x) (nat_of_ascii y)) as [E|N];
    [|discriminate].
  assert (x = y).
  { rewrite <- (ascii_nat_embedding x), <- (ascii_nat_embedding y).
    now f_equal. }
  subst y. apply lex_next. now apply IH.
Qed.

Lemma needs_payment_truthy (c : CitationInfo) :
  (needs_payment c = true -> truthy (Py.get "needs_payment" c)) /\
  (needs_payment c = false -> ~ truthy (Py.get "needs_payment" c)).
Proof.
  unfold needs_payment, truthy.
  destruct (Py.get "needs_payment" c) as [[s|b]|].
  - destruct (String.eqb_spec s ""); simpl; split; congruence.
  - split; congruence.
  - split; [discriminate|tauto].
Qed.

Lemma sorted_among {A} (R R' : A -> A -> Prop) (l : list A) :
  (forall a b, In a l -> In b l -> R a b -> R' a b) ->
  StronglySorted R l -> StronglySorted R' l.
Proof.
  intros H S. induction S as [|x l S IH F]; constructor.
  - apply IH. intros a b Ha Hb. apply H; simpl; auto.
  - apply Forall_forall. intros y Hy. apply H; simpl; auto.
    now apply (proj1 (Forall_forall _ _) F).
Qed.

Lemma produced_shows_id (net : Net) (data : Py.dict string)
    (rows : list SummaryRow) (recs : list CitationInfo) :
  Forall2 (produced_by net data) rows recs ->
  Forall (fun rec => exists x, Py.get "Citation" rec = Some (VStr x) /\
                               citation_key rec = x) recs.
Proof.
  induction 1 as [|row rec rows recs (wa & wb & E) F IH]; constructor;
    [|exact IH].
  destruct (worker_shows_summary _ _ _ _ _ E) as [[G _] K].
  exists (Citation row). cbn [arg_row] in *. auto.
Qed.

(** C4.  When the search has found a results table with at least one row,
    the pipeline returns a merged result whose two partitions together
    hold exactly the records collected from the workers, one for each row;
    total_citations is the number of rows and equals total_paid plus
    total_open, which are the sizes of the partitions; the records of
    open_citations are those whose needs_payment entry is true, the others
    are in paid_citations; and in each partition the Citation entries are
    in ascending order. *)
Theorem merged_result_partitioned (net : Net) (s1 s2 : list nat)
    (tag : string) (w w1 : World) (soup : Soup.Node) (data : Py.dict string)
    (table : Soup.Node) :
  search net tag w = (Ok (soup, data), w1) ->
  find_results_table soup = Some table ->
  parse_main_rows table <> [] ->
  exists res w2 recs,
    fetch_all_citations net s1 s2 tag w = (Ok res, w2) /\
    Forall2 (produced_by net data) (parse_main_rows table) recs /\
    Permutation recs (paid_citations res ++ open_citations res) /\
    total_citations (summary res) = length (parse_main_rows table) /\
    total_citations (summary res) =
      total_paid (summary res) + total_open (summary res) /\
    total_paid (summary res) = length (paid_citations res) /\
    total_open (summary res) = length (open_citations res) /\
    Forall (fun c => truthy (Py.get "needs_payment" c))
      (open_citations res) /\
    Forall (fun c => ~ truthy (Py.get "needs_payment" c))
      (paid_citations res) /\
    StronglySorted ids_ascend (paid_citations res) /\
    StronglySorted ids_ascend (open_citations res).
Proof.
  intros Hs Hf Hr.
  destruct (dispatch_produced net s1 s2 data (parse_main_rows table) w1)
    as (recs & F & P).
  pose proof (merge_well_partitioned tag
                (text_of (Soup.select_one_id "lbl_totaldue_vTag" soup))
                (fst (dispatch net s1 s2 data (parse_main_rows table) w1)))
    as (T & Tn & Tp & To & Q & Fp & Fo & Sp & So).
  eexists. eexists. exists recs. split.
  { apply (fetch_all_citations_found _ _ _ _ _ _ _ _ _ Hs Hf Hr). }
  set (res := merge tag _ _) in *.
  assert (Ids : forall c, In c (paid_citations res ++ open_citations res) ->
            exists x, Py.get "Citation" c = Some (VStr x) /\
                      citation_key c = x).
  { intros c Hc. apply (Permutation_in _ (Permutation_sym Q)) in Hc.
    apply (Permutation_in _ (Permutation_sym P)) in Hc.
    exact (proj1 (Forall_forall _ _) (produced_shows_id _ _ _ _ F) c Hc). }
  assert (Asc : forall l, incl l (paid_citations res ++ open_citations res) ->
            StronglySorted key_le l -> StronglySorted ids_ascend l).
  { intros l Hl. apply sorted_among. intros a b Ha Hb K.
    destruct (Ids a (Hl a Ha)) as (x & Gx & Kx).
    destruct (Ids b (Hl b Hb)) as (y & Gy & Ky).
    exists x, y. split; [exact Gx|]. split; [exact Gy|].
    apply str_leb_lex. unfold key_le in K. now rewrite Kx, Ky in K. }
  split; [exact F|]. split; [now rewrite P|].
  split; [rewrite Tn; apply dispatch_length|].
  split; [exact T|]. split; [exact Tp|]. split; [exact To|].
  split.
  { eapply Forall_impl; [|exact Fo]. intros c. apply needs_payment_truthy. }
  split.
  { eapply Forall_impl; [|exact Fp]. intros c. apply needs_payment_truthy. }
  split.
  - apply Asc; [|exact Sp]. intros c Hc. apply in_or_app. now left.
  - apply Asc; [|exact So]. intros c Hc. apply in_or_app. now right.
Qed.

Lemma merged_result_partitioned_witness :
  exists res w2 recs,
    fetch_all_citations busy_net [2; 0] [1; 1] " abc123 " [] =
      (Ok res, w2) /\
    Forall2 (produced_by busy_net sample_form) (parse_main_rows busy_table)
      recs /\
    Permutation recs (paid_citations res ++ open_citations res) /\
    total_citations (summary res) = length (parse_main_rows busy_table) /\
    total_citations (summary res) =
      total_paid (summary res) + total_open (summary res) /\
    total_paid (summary res) = length (paid_citations res) /\
    total_open (summary res) = length (open_citations res) /\
    Forall (fun c => truthy (Py.get "needs_payment" c))
      (open_citations res) /\
    Forall (fun c => ~ truthy (Py.get "needs_payment" c))
      (paid_citations res) /\
    StronglySorted ids_ascend (paid_citations res) /\
    StronglySorted ids_ascend (open_citations res).
Proof.
  apply (merged_result_partitioned busy_net [2; 0] [1; 1] " abc123 " []
           busy_world busy_page sample_form busy_table).
  - reflexivity.
  - reflexivity.
  - discriminate.
Defined.

Example busy_run_partitions :
  match fst (fetch_all_citations busy_net [2; 0] [1; 1] " abc123 " []) with
  | Ok res =>
      (map (Py.get "Citation") (paid_citations res),
       map (Py.get "Citation") (open_citations res),
       summary res)
  | Raise _ => ([], [], mkSummary 0 0 0 None)
  end =
  ([Some (VStr "A100"); Some (VStr "D400")],
   [Some (VStr "B200"); Some (VStr "C300")],
   mkSummary 4 2 2 (Some "$81.00"%string)).
Proof. reflexivity. Qed.

(** ** The results table among the tables of a page *)

(** X18.  The locator goes through the tables of the page in document
    order and returns the first in which every required column name is the
    lower-cased, stripped text of some [th] cell; it returns none exactly
    when no table of the page is such. *)
Theorem locator_first_match (soup : Soup.Node) :
  match find_results_table soup with
  | Some table =>
      exists before after,
        Soup.find_all "table" soup = before ++ table :: after /\
        shows_columns table /\
        Forall (fun t => ~ shows_columns t) before
  | None =>
      Forall (fun t => ~ shows_columns t) (Soup.find_all "table" soup)
  end.
Proof.
  pose proof (find_results_table_located soup) as H. unfold located in H.
  assert (N : forall l, Forall (fun t => ~ has_needed_headers t) l ->
                        Forall (fun t => ~ shows_columns t) l).
  { intros l. apply Forall_impl. intros t Ht S. apply Ht.
    now apply shows_columns_headers. }
  destruct (find_results_table soup) as [table|].
  - destruct H as (before & after & E & Ht & F).
    exists before, after. split; [exact E|]. split; [|now apply N].
    now apply shows_columns_headers.
  - now apply N.
Qed.



Example locator_skips_partial_table :
  find_results_table listing_page = Some sample_table.
Proof. reflexivity. Qed.
